(** * Gaugehaus real-estate price prediction: the [/predict] endpoint of app.py

    A shallow embedding of [predict] (app.py, lines 47-162) and of the
    module-level state it reads ([model], [label_encoders], [df_cleaned]).

    - Python [int] is [Z]; Python and numpy floats are IEEE binary64, taken
      from the kernel's primitive floats, so NaN and the infinities behave
      as they do in the program.
    - [raise] is the left injection of a sum; the [try]/[except] of lines
      49 and 159-162 is the function [handle].
    - The objects loaded by joblib (model, encoders) and the libraries that
      explain and draw (shap, matplotlib, PIL) are fields of the record
      [Env]: the endpoint is verified for every value of them.
    - Each call into the model, the explainer and the file system is
      recorded in an event log, so that statements such as "the model is
      not invoked" can be written down. *)

From Stdlib Require Import ZArith String List Bool.
From Stdlib Require Import Floats.PrimFloat.
From stdpp Require Import gmap strings list pretty.

Local Open Scope string_scope.
Local Open Scope Z_scope.

(** ** Exceptions and the result type *)

(** The exception classes the handler of lines 159-162 tells apart.  All of
    them derive from [Exception]; [ValueError] stands for the class and its
    subclasses, [OtherException] for every class that is neither a
    [ValueError] nor an [HTTPException], carrying [str(e)]. *)
Inductive exn : Type :=
  | HTTPException (status_code : Z) (detail : string)
  | ValueError (msg : string)
  | OtherException (msg : string).

Definition result (A : Type) : Type := (exn + A)%type.

(** ** Frames, records, requests *)

(** A cell of the one-row frame [input_df]: an integer column (int64) or a
    floating-point column (float64). *)
Inductive cell : Type :=
  | IntCell (z : Z)
  | FloatCell (f : float).

(** A one-row DataFrame: its columns, in order, each with the value of
    row 0. *)
Definition frame : Type := list (string * cell).

Definition columns (df : frame) : list string := map fst df.

(** A row of cleaned_data.csv, with the two columns the endpoint reads. *)
Record record : Type := mk_record {
  City : Z;
  Price_per_sqm : float
}.

(** [class RealEstateInput(BaseModel)], lines 36-44. *)
Record RealEstateInput : Type := mk_input {
  city : string;
  property_type : string;
  furnished : string;
  delivery_term : string;
  bedrooms : Z;
  bathrooms : Z;
  area : float;
  level : Z
}.

(** The dictionary returned at lines 154-158. *)
Record Response : Type := mk_response {
  predicted_price : float;
  image_url : string;
  factors_description : string
}.

(** ** Collaborators *)

(** A fitted [sklearn.preprocessing.LabelEncoder]. *)
Record LabelEncoder : Type := mk_encoder {
  classes_ : list string;
  transform : string -> result Z
}.

(** A [shap.TreeExplainer] built on the model. *)
Record Explainer : Type := mk_explainer {
  shap_values : frame -> result (list (list float));
  expected_value : float
}.

(** Everything [predict] reads but does not define. *)
Record Env : Type := mk_env {
  (* module-level state, lines 23-25 *)
  model_predict : frame -> result (list float);
  label_encoders : gmap string LabelEncoder;
  df_cleaned : list record;
  (* shap.TreeExplainer(model), line 118 *)
  TreeExplainer : result Explainer;
  (* lines 124-139: draw the waterfall plot and read it back as an image *)
  Image : Type;
  waterfall_image : list float -> float -> list cell -> list string -> result Image;
  image_mode : Image -> string;
  convert_RGB : Image -> Image;
  (* img.save(jpeg_path, "JPEG", quality=95), line 144 *)
  save_jpeg : Image -> string -> result unit;
  (* str(e) for an HTTPException (defined by Starlette) *)
  str_HTTPException : Z -> string -> string;
  (* the cast int64 or uint64 -> float64 made by [input_df.iloc[0]] on a
     row of integer and float columns *)
  float64_of_int : Z -> float;
  (* f"{x}" and f"{x:.2f}" on a float64 *)
  str_float : float -> string;
  format_2f : float -> string
}.

(** ** Events and the monad of the endpoint *)

Inductive event : Type :=
  | ModelPredict (input_df : frame)
  | ShapValues (input_df : frame)
  | SaveJpeg (jpeg_path : string).

(** A computation either raises or returns, and logs the calls it made. *)
Definition M (A : Type) : Type := (result A * list event)%type.

Definition ret {A} (a : A) : M A := (inr a, []).
Definition raise {A} (e : exn) : M A := (inl e, []).
Definition lift {A} (r : result A) : M A := (r, []).
Definition emit {A} (ev : event) (r : result A) : M A := (r, [ev]).

Definition bind {A B} (m : M A) (f : A -> M B) : M B :=
  match m with
  | (inl e, l) => (inl e, l)
  | (inr a, l) => let '(r, l') := f a in (r, (l ++ l')%list)
  end.

Notation "'let*' x ':=' m 'in' k" := (bind m (fun x => k))
  (at level 10, x name, m at level 100, k at level 200).

(** ** pandas aggregates on a float64 column *)

Definition notna (x : float) : bool := negb (is_nan x).

(** The count of a column as a float; exact below 2^53. *)
Fixpoint float_of_nat (n : nat) : float :=
  match n with
  | O => 0%float
  | S n' => (float_of_nat n' + 1)%float
  end.

(** numpy's sum of a float64 array ([DOUBLE_pairwise_sum] of umath): fewer
    than 8 values are added from left to right, starting from -0. *)
Definition sum_small (l : list float) : float :=
  fold_left PrimFloat.add l (-0)%float.

(** Eight accumulators, each taking every eighth value, while eight more
    values are there. *)
Fixpoint accumulate (r : list float) (l : list float) : list float :=
  match l with
  | a0 :: a1 :: a2 :: a3 :: a4 :: a5 :: a6 :: a7 :: l' =>
      accumulate (zip_with PrimFloat.add r [a0; a1; a2; a3; a4; a5; a6; a7]) l'
  | _ => r
  end.

(** From 8 to 128 values: the accumulators are added in pairs, and the
    values left over (fewer than 8) are added one by one. *)
Definition sum_block (l : list float) : float :=
  let n := length l in
  match accumulate (take 8 l) (drop 8 l) with
  | [r0; r1; r2; r3; r4; r5; r6; r7] =>
      fold_left PrimFloat.add (drop (n - n mod 8) l)
        (((r0 + r1) + (r2 + r3)) + ((r4 + r5) + (r6 + r7)))%float
  | _ => sum_small l
  end.

(** More than 128 values: the array is cut near its middle, at a multiple
    of 8, and the sums of the two parts are added.  [fuel] bounds the
    depth of the cuts; the length of the array is always enough
    ([pairwise_sum_fuel]). *)
Fixpoint pairwise_sum (fuel : nat) (l : list float) : float :=
  let n := length l in
  if (n <? 8)%nat then sum_small l
  else if (n <=? 128)%nat then sum_block l
  else
    match fuel with
    | O => sum_block l
    | S fuel' =>
        let n2 := (n / 2 - (n / 2) mod 8)%nat in
        (pairwise_sum fuel' (take n2 l) + pairwise_sum fuel' (drop n2 l))%float
    end.

(** [a.sum()] on a one-dimensional float64 array: the reduction starts from
    the identity of addition and adds the pairwise sum of the array. *)
Definition np_sum (l : list float) : float :=
  (0 + pairwise_sum (length l) l)%float.

(** [Series.mean()], skipna=True, as pandas computes it with numpy:
    missing values count as 0 in the sum and are left out of the count; an
    all-missing or empty column gives NaN. *)
Definition Series_mean (l : list float) : float :=
  let count := length (List.filter notna l) in
  let the_sum := np_sum (map (fun x => if is_nan x then 0%float else x) l) in
  match count with
  | O => nan
  | S _ => (the_sum / float_of_nat count)%float
  end.

Fixpoint insert_sorted (x : float) (l : list float) : list float :=
  match l with
  | [] => [x]
  | y :: l' => if (x <=? y)%float then x :: l else y :: insert_sorted x l'
  end.

Definition sort_floats (l : list float) : list float :=
  fold_right insert_sorted [] l.

(** [Series.median()], skipna=True: the middle of the sorted non-missing
    values, the mean of the two middle ones when their number is even. *)
Definition Series_median (l : list float) : float :=
  let xs := sort_floats (List.filter notna l) in
  let n := length xs in
  match n with
  | O => nan
  | S _ =>
      if Nat.even n
      then ((nth (n / 2 - 1) xs nan + nth (n / 2) xs nan) / 2)%float
      else nth (n / 2) xs nan
  end.

(** [np.isnan(x) or not np.isfinite(x)], lines 89 and 92. *)
Definition nan_or_not_finite (x : float) : bool :=
  is_nan x || negb (is_finite x).

(** ** The endpoint *)

Section Endpoint.

Variable E : Env.

(** [d[key]] on a dict: a missing key raises [KeyError], whose [str] is the
    repr of the key. *)
Definition getitem {V} (d : gmap string V) (key : string) : M V :=
  match d !! key with
  | Some v => ret v
  | None => raise (OtherException ("'" ++ key ++ "'"))
  end.

(** [a[0]] on an array. *)
Definition getitem0 {A} (a : list A) : M A :=
  match a with
  | x :: _ => ret x
  | [] => raise (OtherException "index 0 is out of bounds for axis 0 with size 0")
  end.

(** Lines 51-58. *)
Definition validate (input_data : RealEstateInput) : M unit :=
  if bedrooms input_data <? 0
  then raise (HTTPException 400 "Bedrooms must be non-negative")
  else if bathrooms input_data <? 0
  then raise (HTTPException 400 "Bathrooms must be non-negative")
  else if (area input_data <=? 0)%float
  then raise (HTTPException 400 "Area must be positive")
  else if level input_data <? 0
  then raise (HTTPException 400 "Level must be non-negative")
  else ret tt.

(** Lines 61-66; a dict iterates in insertion order. *)
Definition categorical_inputs (input_data : RealEstateInput)
  : list (string * string) :=
  [ ("City", city input_data);
    ("Type", property_type input_data);
    ("Furnished", furnished input_data);
    ("Delivery_Term", delivery_term input_data) ].

Definition invalid_option_detail (col value : string)
    (valid_options : list string) : string :=
  "Invalid " ++ col ++ ": '" ++ value ++ "'. Valid options: "
    ++ String.concat ", " valid_options.

(** The body of the loop, lines 69-77. *)
Definition encode_column (col value : string)
    (encoded_inputs : gmap string Z) : M (gmap string Z) :=
  match label_encoders E !! col with
  | None =>
      raise (HTTPException 500 ("LabelEncoder for " ++ col ++ " not found"))
  | Some encoder =>
      let valid_options := classes_ encoder in
      if bool_decide (value ∈ valid_options)
      then
        let* code := lift (transform encoder value) in
        ret (<[col := code]> encoded_inputs)
      else
        raise (HTTPException 400 (invalid_option_detail col value valid_options))
  end.

(** The loop of line 68. *)
Fixpoint encode_columns (items : list (string * string))
    (encoded_inputs : gmap string Z) : M (gmap string Z) :=
  match items with
  | [] => ret encoded_inputs
  | (col, value) :: items' =>
      let* encoded_inputs' := encode_column col value encoded_inputs in
      encode_columns items' encoded_inputs'
  end.

Definition no_city_data_detail (city_encoded : Z) (decoded : string)
    (valid_cities : list string) : string :=
  "No data for city code " ++ pretty city_encoded ++ " (decoded: " ++ decoded
    ++ "). Valid cities: " ++ String.concat ", " valid_cities.

(** [df_cleaned[df_cleaned["City"] == city_encoded]], line 81. *)
Definition city_rows (city_encoded : Z) : list record :=
  List.filter (fun r => City r =? city_encoded) (df_cleaned E).

(** Lines 80-97. *)
Definition compute_price_per_sqm (input_data : RealEstateInput)
    (encoded_inputs : gmap string Z) : M float :=
  let* city_encoded := getitem encoded_inputs "City" in
  let city_data := city_rows city_encoded in
  match city_data with
  | [] =>
      let* encoder := getitem (label_encoders E) "City" in
      let valid_cities := classes_ encoder in
      raise (HTTPException 400
               (no_city_data_detail city_encoded (city input_data) valid_cities))
  | _ :: _ =>
      let city_avg_price_per_sqm := Series_mean (map Price_per_sqm city_data) in
      if nan_or_not_finite city_avg_price_per_sqm
      then
        let default_price_per_sqm :=
          Series_median (map Price_per_sqm (df_cleaned E)) in
        if nan_or_not_finite default_price_per_sqm
        then raise (HTTPException 500
               "Cannot compute Price_per_sqm: invalid data in cleaned_data.csv")
        else ret default_price_per_sqm
      else ret city_avg_price_per_sqm
  end.

(** Lines 100-110. *)
Definition make_input_df (input_data : RealEstateInput)
    (encoded_inputs : gmap string Z) (city_avg_price_per_sqm : float)
  : M frame :=
  let* type_code := getitem encoded_inputs "Type" in
  let* furnished_code := getitem encoded_inputs "Furnished" in
  let* delivery_code := getitem encoded_inputs "Delivery_Term" in
  let* city_code := getitem encoded_inputs "City" in
  ret [ ("Type", IntCell type_code);
        ("Bedrooms", IntCell (bedrooms input_data));
        ("Bathrooms", IntCell (bathrooms input_data));
        ("Area", FloatCell (area input_data));
        ("Furnished", IntCell furnished_code);
        ("Level", IntCell (level input_data));
        ("Delivery_Term", IntCell delivery_code);
        ("City", IntCell city_code);
        ("Price_per_sqm", FloatCell city_avg_price_per_sqm) ].

(** A Python integer that numpy holds as int64 or uint64; a column with a
    larger one is an object column. *)
Definition fits_64_bits (z : Z) : bool :=
  (- 2 ^ 63 <=? z) && (z <? 2 ^ 64).

Definition has_object_column (df : frame) : bool :=
  existsb (fun c => match snd c with
                    | IntCell z => negb (fits_64_bits z)
                    | FloatCell _ => false
                    end) df.

(** [input_df.iloc[0]]: the row as one Series.  Integer and float columns
    together make it float64; with an object column the row is an object
    Series and every value stays as it is. *)
Definition iloc0 (df : frame) : list cell :=
  if has_object_column df
  then map snd df
  else map (fun c => match snd c with
                     | IntCell z => FloatCell (float64_of_int E z)
                     | FloatCell f => FloatCell f
                     end) df.

(** [f"{feature_value}"] on a value of that row. *)
Definition str_value (feature_value : cell) : string :=
  match feature_value with
  | IntCell z => pretty z
  | FloatCell f => str_float E f
  end.

(** Lines 150-151, one turn of the loop. *)
Definition feature_line (feature_name : string) (shap_value : float)
    (feature_value : cell) : string :=
  let direction :=
    if (0 <? shap_value)%float then "increased" else "decreased" in
  "- " ++ feature_name ++ ": Value = " ++ str_value feature_value ++ ", "
    ++ direction ++ " price by " ++ format_2f E (abs shap_value) ++ " units."
    ++ String (Ascii.ascii_of_nat 10) "".

(** The loop of line 149; [zip] stops with its shortest argument. *)
Fixpoint describe (names : list string) (shaps : list float)
    (values : list cell) (description : string) : string :=
  match names, shaps, values with
  | feature_name :: names', shap_value :: shaps', feature_value :: values' =>
      describe names' shaps' values'
        (description ++ feature_line feature_name shap_value feature_value)
  | _, _, _ => description
  end.

Definition description_header : string :=
  "Factors influencing the predicted price:" ++ String (Ascii.ascii_of_nat 10) "".

(** Lines 113-158: predict, explain, draw, describe, answer.  [unique_id]
    is the string drawn by [uuid.uuid4()] at line 142. *)
Definition predict_and_explain (input_df : frame) (unique_id : string)
  : M Response :=
  let* predictions := emit (ModelPredict input_df) (model_predict E input_df) in
  let* predicted_price := getitem0 predictions in
  let* _ :=
    if (predicted_price <? 0)%float
    then raise (HTTPException 500 "Predicted price is negative, which is invalid")
    else ret tt in
  let* explainer := lift (TreeExplainer E) in
  let* shap_values := emit (ShapValues input_df) (shap_values explainer input_df) in
  let* shap_row := getitem0 shap_values in
  let* img := lift (waterfall_image E shap_row (expected_value explainer)
                      (iloc0 input_df) (columns input_df)) in
  let img := if String.eqb (image_mode E img) "RGBA" then convert_RGB E img else img in
  let jpeg_path := "static/shap_explanation_" ++ unique_id ++ ".jpeg" in
  let* _ := emit (SaveJpeg jpeg_path) (save_jpeg E img jpeg_path) in
  let image_url := "/static/shap_explanation_" ++ unique_id ++ ".jpeg" in
  let description :=
    describe (columns input_df) shap_row (iloc0 input_df) description_header in
  ret {| predicted_price := predicted_price;
         image_url := image_url;
         factors_description := description |}.

(** The body of the [try], lines 50-158. *)
Definition predict_body (input_data : RealEstateInput) (unique_id : string)
  : M Response :=
  let* _ := validate input_data in
  let* encoded_inputs := encode_columns (categorical_inputs input_data) ∅ in
  let* city_avg_price_per_sqm :=
    compute_price_per_sqm input_data encoded_inputs in
  let* input_df := make_input_df input_data encoded_inputs city_avg_price_per_sqm in
  predict_and_explain input_df unique_id.

(** [str(e)]. *)
Definition str_exn (e : exn) : string :=
  match e with
  | HTTPException status_code detail => str_HTTPException E status_code detail
  | ValueError msg => msg
  | OtherException msg => msg
  end.

(** The two [except] clauses, lines 159-162: the first that matches the
    class of the exception handles it. *)
Definition handle {A} (m : M A) : M A :=
  match m with
  | (inl (ValueError msg), log) =>
      (inl (HTTPException 400 ("Input error: " ++ msg)), log)
  | (inl e, log) =>
      (inl (HTTPException 500 ("Prediction failed: " ++ str_exn e)), log)
  | (inr a, log) => (inr a, log)
  end.

(** [predict], lines 47-162. *)
Definition predict (input_data : RealEstateInput) (unique_id : string)
  : M Response :=
  handle (predict_body input_data unique_id).

(** ** Vocabulary of the statements *)

(** Lines 50-110 on their own: the frame the model will receive. *)
Definition assemble (input_data : RealEstateInput) : M frame :=
  let* _ := validate input_data in
  let* encoded_inputs := encode_columns (categorical_inputs input_data) ∅ in
  let* city_avg_price_per_sqm :=
    compute_price_per_sqm input_data encoded_inputs in
  make_input_df input_data encoded_inputs city_avg_price_per_sqm.

(** [code] is what the encoder table gives for [value] in column [col]. *)
Definition encoded (col value : string) (code : Z) : Prop :=
  exists encoder,
    label_encoders E !! col = Some encoder
    /\ value ∈ classes_ encoder
    /\ transform encoder value = inr code.

(** The value the Price_per_sqm column takes for a city code that has
    records: the city mean, or the global median when the mean is NaN or
    infinite. *)
Definition city_mean (city_encoded : Z) : float :=
  Series_mean (map Price_per_sqm (city_rows city_encoded)).

Definition global_median : float :=
  Series_median (map Price_per_sqm (df_cleaned E)).

Definition price_feature (city_encoded : Z) : float :=
  if nan_or_not_finite (city_mean city_encoded)
  then global_median
  else city_mean city_encoded.

End Endpoint.

(** The four codes of a request. *)
Record codes : Type := mk_codes {
  city_code : Z;
  type_code : Z;
  furnished_code : Z;
  delivery_code : Z
}.

Definition encodes (E : Env) (d : RealEstateInput) (c : codes) : Prop :=
  encoded E "City" (city d) (city_code c)
  /\ encoded E "Type" (property_type d) (type_code c)
  /\ encoded E "Furnished" (furnished d) (furnished_code c)
  /\ encoded E "Delivery_Term" (delivery_term d) (delivery_code c).

(** A computation that makes no call. *)
Definition silent {A} (m : M A) : Prop := snd m = [].

(** A request that validation turns down. *)
Definition out_of_range (d : RealEstateInput) : Prop :=
  bedrooms d < 0 \/ bathrooms d < 0 \/ (area d <=? 0)%float = true
  \/ level d < 0.

(** The dictionary [encoded_inputs] once the loop has run. *)
Definition encoded_dict (c : codes) : gmap string Z :=
  <["Delivery_Term" := delivery_code c]>
    (<["Furnished" := furnished_code c]>
       (<["Type" := type_code c]> (<["City" := city_code c]> ∅))).

(** The column order of the spec's FeatureVector. *)
Definition feature_columns : list string :=
  [ "Type"; "Bedrooms"; "Bathrooms"; "Area"; "Furnished"; "Level";
    "Delivery_Term"; "City"; "Price_per_sqm" ].

Definition feature_vector (d : RealEstateInput) (c : codes)
    (price_per_sqm : float) : frame :=
  [ ("Type", IntCell (type_code c));
    ("Bedrooms", IntCell (bedrooms d));
    ("Bathrooms", IntCell (bathrooms d));
    ("Area", FloatCell (area d));
    ("Furnished", IntCell (furnished_code c));
    ("Level", IntCell (level d));
    ("Delivery_Term", IntCell (delivery_code c));
    ("City", IntCell (city_code c));
    ("Price_per_sqm", FloatCell price_per_sqm) ].

(** The arithmetic mean of a column, every value counted. *)
Definition arithmetic_mean (l : list float) : float :=
  (np_sum l / float_of_nat (length l))%float.

(** C3, as the claim states it: whenever the records of the submitted
    city hold at least one finite Price_per_sqm, the Price_per_sqm given to
    the model is the arithmetic mean of the column over those records. *)
Definition derived_price_is_city_mean (E : Env) : Prop :=
  forall d uid c p,
    In (ModelPredict (feature_vector d c p)) (snd (predict E d uid)) ->
    (exists r, In r (city_rows E (city_code c))
               /\ is_finite (Price_per_sqm r) = true) ->
    p = arithmetic_mean (map Price_per_sqm (city_rows E (city_code c))).

(** The path of line 143. *)
Definition jpeg_path_of (unique_id : string) : string :=
  "static/shap_explanation_" ++ unique_id ++ ".jpeg".

(** The mean of a column in the words of the spec, missing values left
    out: the sum of the column, a missing value counting as 0, over the
    number of values that are not missing. *)
Definition mean_skipping_missing (l : list float) : float :=
  (np_sum (map (fun x => if is_nan x then 0 else x) l)
   / float_of_nat (length (List.filter (fun x => negb (is_nan x)) l)))%float.


(** The lines the description is made of. *)
Fixpoint feature_lines (E : Env) (names : list string)
    (shaps : list float) (values : list cell) : list string :=
  match names, shaps, values with
  | feature_name :: names', shap_value :: shaps', feature_value :: values' =>
      feature_line E feature_name shap_value feature_value
        :: feature_lines E names' shaps' values'
  | _, _, _ => []
  end.


(** ** Start-up, lines 22-33

    The module body of app.py loads the three artefacts and checks the
    columns of the dataset before the endpoint is served.  The three loads
    ([joblib.load] twice, [pd.read_csv]) are results given from outside;
    only the result of the first load that fails is looked at. *)

Module Startup.

(** The exception classes lines 26 and 33 tell apart; [OtherException] is
    any class that is not a [FileNotFoundError], carrying [str(e)]. *)
Inductive exn : Type :=
  | FileNotFoundError (msg : string)
  | ValueError (msg : string)
  | OtherException (msg : string).

Definition result (A : Type) : Type := (exn + A)%type.

Section Load.

Context {Model Encoders DataFrame : Type}.

(** [joblib.load('model.joblib')], [joblib.load('encoders.joblib')],
    [pd.read_csv('cleaned_data.csv')]. *)
Variable load_model : result Model.
Variable load_encoders : result Encoders.
Variable read_csv : result DataFrame.

(** [df_cleaned.columns]. *)
Variable df_columns : DataFrame -> list string.

(** The body of the [try], lines 23-25. *)
Definition load_all : result (Model * Encoders * DataFrame) :=
  match load_model with
  | inl e => inl e
  | inr model =>
      match load_encoders with
      | inl e => inl e
      | inr label_encoders =>
          match read_csv with
          | inl e => inl e
          | inr df_cleaned => inr (model, label_encoders, df_cleaned)
          end
      end
  end.

Definition missing_file_message (str_e : string) : string :=
  "Missing file: " ++ str_e
    ++ ". Ensure 'model.joblib', 'encoders.joblib', and 'cleaned_data.csv' are in the project root.".

(** The [except FileNotFoundError] clause, lines 26-27; any other exception
    leaves the module as it is. *)
Definition except_FileNotFoundError {A} (r : result A) : result A :=
  match r with
  | inl (FileNotFoundError msg) =>
      inl (FileNotFoundError (missing_file_message msg))
  | _ => r
  end.

(** Line 30. *)
Definition required_columns : list string := ["City"; "Price_per_sqm"].

Definition missing_column_message (col : string) : string :=
  "Column '" ++ col
    ++ "' missing in cleaned_data.csv. Run prepare_cleaned_data.py to generate it.".

(** The loop of lines 31-33. *)
Fixpoint check_columns (cols present : list string) : result unit :=
  match cols with
  | [] => inr tt
  | col :: cols' =>
      if bool_decide (col ∈ present)
      then check_columns cols' present
      else inl (ValueError (missing_column_message col))
  end.

(** Lines 22-33. *)
Definition startup : result (Model * Encoders * DataFrame) :=
  match except_FileNotFoundError load_all with
  | inl e => inl e
  | inr (model, label_encoders, df_cleaned) =>
      match check_columns required_columns (df_columns df_cleaned) with
      | inl e => inl e
      | inr _ => inr (model, label_encoders, df_cleaned)
      end
  end.

End Load.

End Startup.

(** ** A concrete deployment

    A small encoder table, reference dataset, model and explainer, on which
    the endpoint can be run. *)

Module Example.

(** A fitted encoder: the code of a label is its position among the
    classes; an unseen label raises [ValueError], as sklearn does. *)
Fixpoint position (value : string) (classes : list string) (i : Z) : result Z :=
  match classes with
  | [] => inl (ValueError ("y contains previously unseen labels: '" ++ value ++ "'"))
  | c :: classes' =>
      if String.eqb value c then inr i else position value classes' (i + 1)
  end.

Definition fitted (classes : list string) : LabelEncoder :=
  {| classes_ := classes; transform := fun value => position value classes 0 |}.

Definition city_classes : list string := ["Alexandria"; "Cairo"; "Giza"; "Luxor"].
Definition type_classes : list string := ["Apartment"; "Villa"].
Definition furnished_classes : list string := ["No"; "Yes"].
Definition delivery_classes : list string := ["Finished"; "Ready"].

Definition encoders : gmap string LabelEncoder :=
  <["City" := fitted city_classes]>
  (<["Type" := fitted type_classes]>
  (<["Furnished" := fitted furnished_classes]>
  (<["Delivery_Term" := fitted delivery_classes]> ∅))).

(** Cairo (1) has three ordinary records; Alexandria (0) has one ordinary
    record and one infinite one; Luxor (3) has only a missing value; Giza
    (2) has no record. *)
Definition dataset : list record :=
  [ {| City := 1; Price_per_sqm := 10 |};
    {| City := 0; Price_per_sqm := 1 |};
    {| City := 1; Price_per_sqm := 20 |};
    {| City := 0; Price_per_sqm := infinity |};
    {| City := 3; Price_per_sqm := nan |};
    {| City := 1; Price_per_sqm := 60 |} ].

(** A dataset whose prices are all missing. *)
Definition corrupt_dataset : list record :=
  [ {| City := 1; Price_per_sqm := nan |};
    {| City := 0; Price_per_sqm := nan |} ].

Fixpoint float_of_positive (p : positive) : float :=
  match p with
  | xH => 1%float
  | xO p' => (2 * float_of_positive p')%float
  | xI p' => (2 * float_of_positive p' + 1)%float
  end.

Definition float_of_Z (z : Z) : float :=
  match z with
  | Z0 => 0%float
  | Zpos p => float_of_positive p
  | Zneg p => (- float_of_positive p)%float
  end.

(** Price = area times price per square metre. *)
Definition area_model (df : frame) : result (list float) :=
  match df !! 3%nat, df !! 8%nat with
  | Some (_, FloatCell a), Some (_, FloatCell p) => inr [(a * p)%float]
  | _, _ => inl (ValueError "X has an unexpected number of features")
  end.

(** A model gone wrong: every price is negative. *)
Definition negative_model (df : frame) : result (list float) :=
  inr [(-1)%float].

(** A model that rejects its input. *)
Definition failing_model (df : frame) : result (list float) :=
  inl (ValueError "Input X contains NaN.").

Definition attributions : list float :=
  [ 4; -3; 0; 150; -2; 1; 0; 25; -175 ]%float.

(** One attribution per column of the frame it is given. *)
Definition explainer : Explainer :=
  {| shap_values := fun df =>
       inr [zip_with (fun a _ => a)
              (attributions ++ repeat 0%float (length df))%list df];
     expected_value := 1500%float |}.

(** The integer part of a non-negative float below 2^41, one bit at a
    time from the top. *)
Fixpoint floor_from (k : nat) (acc : Z) (x : float) : Z :=
  let candidate := acc + 2 ^ Z.of_nat k in
  let acc' := if (float_of_Z candidate <=? x)%float then candidate else acc in
  match k with
  | O => acc'
  | S k' => floor_from k' acc' x
  end.

Definition floor (x : float) : Z := floor_from 40 0 x.

Definition two_digits (n : Z) : string :=
  if n <? 10 then "0" ++ pretty n else pretty n.

(** Fixed-point printing with [scale] = 10 or 100, for the small values of
    this deployment. *)
Definition fixed (scale : Z) (x : float) : string :=
  if is_nan x then "nan"
  else if is_infinity x then (if (x <? 0)%float then "-inf" else "inf")
  else
    let n := floor (abs x * float_of_Z scale + 0.5)%float in
    (if (x <? 0)%float then "-" else "")
      ++ pretty (n / scale) ++ "."
      ++ (if scale =? 10 then pretty (n mod scale) else two_digits (n mod scale)).

Definition env (data : list record)
    (model : frame -> result (list float)) : Env :=
  {| model_predict := model;
     label_encoders := encoders;
     df_cleaned := data;
     TreeExplainer := inr explainer;
     Image := unit;
     waterfall_image := fun _ _ _ _ => inr tt;
     image_mode := fun _ => "RGBA";
     convert_RGB := fun i => i;
     save_jpeg := fun _ _ => inr tt;
     str_HTTPException := fun status_code detail =>
       pretty status_code ++ ": " ++ detail;
     float64_of_int := float_of_Z;
     str_float := fixed 10;
     format_2f := fixed 100 |}.

Definition request : RealEstateInput :=
  {| city := "Cairo"; property_type := "Apartment"; furnished := "Yes";
     delivery_term := "Ready"; bedrooms := 3; bathrooms := 2;
     area := 150%float; level := 4 |}.

Definition with_city (c : string) (r : RealEstateInput) : RealEstateInput :=
  {| city := c; property_type := property_type r; furnished := furnished r;
     delivery_term := delivery_term r; bedrooms := bedrooms r;
     bathrooms := bathrooms r; area := area r; level := level r |}.

Definition with_bedrooms (n : Z) (r : RealEstateInput) : RealEstateInput :=
  {| city := city r; property_type := property_type r; furnished := furnished r;
     delivery_term := delivery_term r; bedrooms := n;
     bathrooms := bathrooms r; area := area r; level := level r |}.

(** The frame of [request] on [dataset], and the answer it gets with
    [area_model]. *)
Definition request_frame : frame :=
  [ ("Type", IntCell 0); ("Bedrooms", IntCell 3); ("Bathrooms", IntCell 2);
    ("Area", FloatCell 150); ("Furnished", IntCell 1); ("Level", IntCell 4);
    ("Delivery_Term", IntCell 1); ("City", IntCell 1);
    ("Price_per_sqm", FloatCell 30) ].

Definition answer : Response :=
  {| predicted_price := 4500;
     image_url := "/static/shap_explanation_u1.jpeg";
     factors_description :=
"Factors influencing the predicted price:
- Type: Value = 0.0, increased price by 4.00 units.
- Bedrooms: Value = 3.0, decreased price by 3.00 units.
- Bathrooms: Value = 2.0, decreased price by 0.00 units.
- Area: Value = 150.0, increased price by 150.00 units.
- Furnished: Value = 1.0, decreased price by 2.00 units.
- Level: Value = 4.0, increased price by 1.00 units.
- Delivery_Term: Value = 1.0, decreased price by 0.00 units.
- City: Value = 1.0, increased price by 25.00 units.
- Price_per_sqm: Value = 30.0, decreased price by 175.00 units.
" |}.

End Example.


(** ** Variants of the example deployment *)

Module Variant.

(** The same deployment with another encoder table. *)
Definition with_label_encoders (encs : gmap string LabelEncoder) (E : Env)
  : Env :=
  {| model_predict := model_predict E;
     label_encoders := encs;
     df_cleaned := df_cleaned E;
     TreeExplainer := TreeExplainer E;
     Image := Image E;
     waterfall_image := waterfall_image E;
     image_mode := image_mode E;
     convert_RGB := convert_RGB E;
     save_jpeg := save_jpeg E;
     str_HTTPException := str_HTTPException E;
     float64_of_int := float64_of_int E;
     str_float := str_float E;
     format_2f := format_2f E |}.

(** The same deployment with another explainer. *)
Definition with_explainer (ex : result Explainer) (E : Env) : Env :=
  {| model_predict := model_predict E;
     label_encoders := label_encoders E;
     df_cleaned := df_cleaned E;
     TreeExplainer := ex;
     Image := Image E;
     waterfall_image := waterfall_image E;
     image_mode := image_mode E;
     convert_RGB := convert_RGB E;
     save_jpeg := save_jpeg E;
     str_HTTPException := str_HTTPException E;
     float64_of_int := float64_of_int E;
     str_float := str_float E;
     format_2f := format_2f E |}.

(** The example deployment, and the same without an encoder for Type. *)
Definition deployed : Env := Example.env Example.dataset Example.area_model.

Definition without_type_encoder : Env :=
  with_label_encoders (delete "Type" Example.encoders) deployed.

(** An explainer that gives two attributions whatever the frame. *)
Definition short_explainer : Explainer :=
  {| shap_values := fun _ => inr [[4; -3]%float];
     expected_value := 1500%float |}.

Definition short_deployed : Env := with_explainer (inr short_explainer) deployed.

Definition short_answer : Response :=
  {| predicted_price := 4500;
     image_url := "/static/shap_explanation_u1.jpeg";
     factors_description :=
"Factors influencing the predicted price:
- Type: Value = 0.0, increased price by 4.00 units.
- Bedrooms: Value = 3.0, decreased price by 3.00 units.
" |}.

(** The example request with other numbers. *)
Definition with_numbers (b ba : Z) (a : float) (lv : Z) (r : RealEstateInput)
  : RealEstateInput :=
  {| city := city r; property_type := property_type r; furnished := furnished r;
     delivery_term := delivery_term r; bedrooms := b; bathrooms := ba;
     area := a; level := lv |}.

(** Three start-ups: every file in place; the encoders missing; the
    dataset without its City column. *)
Definition csv_columns : list string :=
  ["Type"; "Bedrooms"; "Bathrooms"; "Area"; "Furnished"; "Level";
   "Delivery_Term"; "City"; "Price"; "Price_per_sqm"].

Definition startup_ok : Startup.result (unit * unit * list string) :=
  Startup.startup (inr tt) (inr tt) (inr csv_columns) (fun cols => cols).

Definition startup_no_encoders : Startup.result (unit * unit * list string) :=
  Startup.startup (inr tt)
    (inl (Startup.FileNotFoundError
            "[Errno 2] No such file or directory: 'encoders.joblib'"))
    (inl (Startup.FileNotFoundError
            "[Errno 2] No such file or directory: 'cleaned_data.csv'"))
    (fun cols => cols).

Definition startup_no_city : Startup.result (unit * unit * list string) :=
  Startup.startup (inr tt) (inr tt) (inr ["Price"; "Area"]) (fun cols => cols).

End Variant.

(** ** The monad: inversion and logs *)

Lemma bind_inl {A B} (m : M A) (f : A -> M B) e l :
  m = (inl e, l) -> bind m f = (inl e, l).
Proof. intros ->. reflexivity. Qed.

Lemma bind_inr {A B} (m : M A) (f : A -> M B) a l :
  m = (inr a, l) -> bind m f = (fst (f a), (l ++ snd (f a))%list).
Proof. intros ->. simpl. destruct (f a). reflexivity. Qed.

Lemma bind_pure {A B} (m : M A) (f : A -> M B) a :
  m = (inr a, []) -> bind m f = f a.
Proof. intros ->. simpl. destruct (f a). reflexivity. Qed.

Lemma bind_inv_inr {A B} (m : M A) (f : A -> M B) b l :
  bind m f = (inr b, l) ->
  exists a l1 l2, m = (inr a, l1) /\ f a = (inr b, l2) /\ l = (l1 ++ l2)%list.
Proof.
  destruct m as [[e | a] l1]; simpl; [discriminate |].
  destruct (f a) as [r l2] eqn:Hf. intros [= -> <-].
  exists a, l1, l2. rewrite Hf. auto.
Qed.

Lemma silent_bind {A B} (m : M A) (f : A -> M B) :
  silent m -> (forall a, silent (f a)) -> silent (bind m f).
Proof.
  unfold silent. destruct m as [[e | a] l]; simpl; intros ->; [done |].
  intros Hf. specialize (Hf a). destruct (f a). simpl in *. done.
Qed.

Lemma silent_eq {A} (m : M A) r l : silent m -> m = (r, l) -> l = [].
Proof. unfold silent. intros H ->. exact H. Qed.

Section Properties.

Variable E : Env.

Lemma silent_getitem {V} (d : gmap string V) key : silent (getitem d key).
Proof. unfold getitem. by destruct (d !! key). Qed.

Lemma silent_validate d : silent (validate d).
Proof. unfold validate. by repeat case_match. Qed.

Lemma silent_encode_column col value m : silent (encode_column E col value m).
Proof.
  unfold encode_column. destruct (label_encoders E !! col); [| done].
  case_match; [| done]. apply silent_bind; done.
Qed.

Lemma silent_encode_columns items m : silent (encode_columns E items m).
Proof.
  revert m. induction items as [| [col value] items IH]; intros m; [done |].
  simpl. apply silent_bind; [apply silent_encode_column | done].
Qed.

Lemma silent_compute_price_per_sqm d m : silent (compute_price_per_sqm E d m).
Proof.
  unfold compute_price_per_sqm. apply silent_bind; [apply silent_getitem |].
  intros code. destruct (city_rows E code).
  - apply silent_bind; [apply silent_getitem | done].
  - by repeat case_match.
Qed.

Lemma silent_make_input_df d m p : silent (make_input_df d m p).
Proof.
  unfold make_input_df.
  repeat (apply silent_bind; [apply silent_getitem | intros ?]). done.
Qed.

(** ** The [except] clauses *)

Lemma handle_ValueError {A} msg log :
  handle E (A := A) (inl (ValueError msg), log)
  = (inl (HTTPException 400 ("Input error: " ++ msg)), log).
Proof. reflexivity. Qed.

Lemma handle_not_ValueError {A} e log :
  (forall msg, e <> ValueError msg) ->
  handle E (A := A) (inl e, log)
  = (inl (HTTPException 500 ("Prediction failed: " ++ str_exn E e)), log).
Proof. intros H. destruct e; simpl; try reflexivity. by destruct (H msg). Qed.

Lemma handle_HTTPException {A} status_code detail log :
  handle E (A := A) (inl (HTTPException status_code detail), log)
  = (inl (HTTPException 500
            ("Prediction failed: " ++ str_HTTPException E status_code detail)),
     log).
Proof. reflexivity. Qed.

(** Whatever the body raises, the endpoint raises an [HTTPException]. *)
Lemma predict_raises_HTTPException d uid e log :
  predict E d uid = (inl e, log) ->
  exists status_code detail, e = HTTPException status_code detail.
Proof.
  unfold predict, handle.
  destruct (predict_body E d uid) as [[[] | r] l]; intros [= <- <-]; eauto.
Qed.

(** ** Validation, lines 51-58 *)

Lemma validate_rejects d :
  out_of_range d ->
  exists detail, validate d = (inl (HTTPException 400 detail), []).
Proof.
  unfold out_of_range, validate. intros H.
  destruct (Z.ltb_spec (bedrooms d) 0); [eauto |].
  destruct (Z.ltb_spec (bathrooms d) 0); [eauto |].
  destruct (area d <=? 0)%float; [eauto |].
  destruct (Z.ltb_spec (level d) 0); [eauto |].
  destruct H as [? | [? | [? | ?]]]; (lia || discriminate).
Qed.

Lemma validate_accepts d :
  ~ out_of_range d -> validate d = (inr tt, []).
Proof.
  unfold out_of_range, validate. intros H.
  destruct (Z.ltb_spec (bedrooms d) 0); [tauto |].
  destruct (Z.ltb_spec (bathrooms d) 0); [tauto |].
  destruct (area d <=? 0)%float; [tauto |].
  destruct (Z.ltb_spec (level d) 0); [tauto |].
  reflexivity.
Qed.

(** ** The encoding loop, lines 68-77 *)

Lemma encode_column_ok col value code m :
  encoded E col value code ->
  encode_column E col value m = (inr (<[col := code]> m), []).
Proof.
  intros (encoder & Hlook & Hin & Htr). unfold encode_column.
  rewrite Hlook, bool_decide_eq_true_2 by done. rewrite Htr. reflexivity.
Qed.

Lemma encode_column_inv col value m m' l :
  encode_column E col value m = (inr m', l) ->
  exists code, encoded E col value code /\ m' = <[col := code]> m.
Proof.
  unfold encode_column.
  destruct (label_encoders E !! col) as [encoder |] eqn:Hlook; [| discriminate].
  case_bool_decide as Hin; [| discriminate].
  destruct (transform encoder value) as [e | code] eqn:Htr; [discriminate |].
  intros [= <- <-]. exists code. split; [| done]. by exists encoder.
Qed.

Lemma encode_column_invalid col value encoder m :
  label_encoders E !! col = Some encoder ->
  value ∉ classes_ encoder ->
  encode_column E col value m
  = (inl (HTTPException 400
            (invalid_option_detail col value (classes_ encoder))), []).
Proof.
  intros Hlook Hin. unfold encode_column.
  rewrite Hlook, bool_decide_eq_false_2 by done. reflexivity.
Qed.

Lemma encode_columns_app xs ys m :
  encode_columns E (xs ++ ys)%list m
  = bind (encode_columns E xs m) (encode_columns E ys).
Proof.
  revert m. induction xs as [| [col value] xs IH]; intros m; simpl.
  - by destruct (encode_columns E ys m).
  - pose proof (silent_encode_column col value m) as Hs.
    destruct (encode_column E col value m) as [[e | m'] l]; [done |].
    unfold silent in Hs; simpl in Hs; subst l.
    simpl. rewrite IH.
    destruct (encode_columns E xs m') as [[e | m''] l]; [done |].
    simpl. destruct (encode_columns E ys m''). reflexivity.
Qed.

Lemma encode_columns_ok d c :
  encodes E d c ->
  encode_columns E (categorical_inputs d) ∅ = (inr (encoded_dict c), []).
Proof.
  intros (Hc & Ht & Hf & Hd). unfold categorical_inputs. simpl.
  rewrite (encode_column_ok _ _ _ _ Hc). simpl.
  rewrite (encode_column_ok _ _ _ _ Ht). simpl.
  rewrite (encode_column_ok _ _ _ _ Hf). simpl.
  rewrite (encode_column_ok _ _ _ _ Hd). reflexivity.
Qed.

Lemma encode_columns_inv d m l :
  encode_columns E (categorical_inputs d) ∅ = (inr m, l) ->
  exists c, encodes E d c /\ m = encoded_dict c /\ l = [].
Proof.
  intros H. pose proof (silent_eq _ _ _ (silent_encode_columns _ _) H) as ->.
  unfold categorical_inputs in H. simpl in H.
  apply bind_inv_inr in H as (m1 & l1 & l1' & H1 & H & _).
  apply bind_inv_inr in H as (m2 & l2 & l2' & H2 & H & _).
  apply bind_inv_inr in H as (m3 & l3 & l3' & H3 & H & _).
  apply bind_inv_inr in H as (m4 & l4 & l4' & H4 & H & _).
  injection H as <- _.
  apply encode_column_inv in H1 as (c1 & E1 & ->).
  apply encode_column_inv in H2 as (c2 & E2 & ->).
  apply encode_column_inv in H3 as (c3 & E3 & ->).
  apply encode_column_inv in H4 as (c4 & E4 & ->).
  exists (mk_codes c1 c2 c3 c4). repeat split; assumption.
Qed.

Lemma encoded_dict_City c : encoded_dict c !! "City" = Some (city_code c).
Proof. unfold encoded_dict. by simplify_map_eq. Qed.

Lemma encoded_dict_Type c : encoded_dict c !! "Type" = Some (type_code c).
Proof. unfold encoded_dict. by simplify_map_eq. Qed.

Lemma encoded_dict_Furnished c :
  encoded_dict c !! "Furnished" = Some (furnished_code c).
Proof. unfold encoded_dict. by simplify_map_eq. Qed.

Lemma encoded_dict_Delivery_Term c :
  encoded_dict c !! "Delivery_Term" = Some (delivery_code c).
Proof. unfold encoded_dict. by simplify_map_eq. Qed.

Lemma make_input_df_encoded d c p :
  make_input_df d (encoded_dict c) p = (inr (feature_vector d c p), []).
Proof.
  unfold make_input_df, getitem.
  rewrite encoded_dict_Type, encoded_dict_Furnished,
    encoded_dict_Delivery_Term, encoded_dict_City.
  reflexivity.
Qed.

(** ** The derived feature, lines 80-97 *)

Lemma compute_price_per_sqm_no_data d c encoder :
  label_encoders E !! "City" = Some encoder ->
  city_rows E (city_code c) = [] ->
  compute_price_per_sqm E d (encoded_dict c)
  = (inl (HTTPException 400
            (no_city_data_detail (city_code c) (city d) (classes_ encoder))),
     []).
Proof.
  intros Hlook Hrows. unfold compute_price_per_sqm, getitem.
  rewrite encoded_dict_City. simpl. rewrite Hrows, Hlook. reflexivity.
Qed.

Lemma compute_price_per_sqm_corrupt d c :
  city_rows E (city_code c) <> [] ->
  nan_or_not_finite (city_mean E (city_code c)) = true ->
  nan_or_not_finite (global_median E) = true ->
  compute_price_per_sqm E d (encoded_dict c)
  = (inl (HTTPException 500
            "Cannot compute Price_per_sqm: invalid data in cleaned_data.csv"),
     []).
Proof.
  intros Hrows Hmean Hmed. unfold compute_price_per_sqm, getitem.
  rewrite encoded_dict_City. simpl.
  unfold city_mean in Hmean. unfold global_median in Hmed.
  destruct (city_rows E (city_code c)) as [| r rows]; [done |].
  rewrite Hmean, Hmed. reflexivity.
Qed.

Lemma compute_price_per_sqm_ok d c :
  city_rows E (city_code c) <> [] ->
  nan_or_not_finite (price_feature E (city_code c)) = false ->
  compute_price_per_sqm E d (encoded_dict c)
  = (inr (price_feature E (city_code c)), []).
Proof.
  intros Hrows Hfin. unfold compute_price_per_sqm, getitem.
  rewrite encoded_dict_City. simpl.
  unfold price_feature, city_mean, global_median in *.
  destruct (city_rows E (city_code c)) as [| r rows]; [done |].
  destruct (nan_or_not_finite (Series_mean _)) eqn:Hmean.
  - rewrite Hfin. reflexivity.
  - reflexivity.
Qed.

Lemma compute_price_per_sqm_inv d c p l :
  compute_price_per_sqm E d (encoded_dict c) = (inr p, l) ->
  city_rows E (city_code c) <> []
  /\ p = price_feature E (city_code c)
  /\ nan_or_not_finite p = false.
Proof.
  unfold compute_price_per_sqm, getitem.
  rewrite encoded_dict_City. simpl.
  unfold price_feature, city_mean, global_median.
  destruct (city_rows E (city_code c)) as [| r rows] eqn:Hrows.
  - destruct (label_encoders E !! "City"); discriminate.
  - destruct (nan_or_not_finite (Series_mean _)) eqn:Hmean.
    + destruct (nan_or_not_finite (Series_median _)) eqn:Hmed; [discriminate |].
      intros [= <- <-]. done.
    + intros [= <- <-]. done.
Qed.

(** ** Lines 50-110 as a whole *)

Lemma bind_assoc {A B C} (m : M A) (f : A -> M B) (g : B -> M C) :
  bind (bind m f) g = bind m (fun a => bind (f a) g).
Proof.
  destruct m as [[e | a] l]; simpl; [done |].
  destruct (f a) as [[e | b] l1]; simpl; [done |].
  destruct (g b) as [r l2]. by rewrite app_assoc.
Qed.

Lemma bind_ext {A B} (m : M A) (f g : A -> M B) :
  (forall a, f a = g a) -> bind m f = bind m g.
Proof. intros H. destruct m as [[e | a] l]; simpl; [done |]. by rewrite H. Qed.

Lemma predict_body_split d uid :
  predict_body E d uid
  = bind (assemble E d) (fun df => predict_and_explain E df uid).
Proof.
  unfold predict_body, assemble.
  rewrite bind_assoc. apply bind_ext. intros _.
  rewrite bind_assoc. apply bind_ext. intros m.
  rewrite bind_assoc. reflexivity.
Qed.

Lemma silent_assemble d : silent (assemble E d).
Proof.
  unfold assemble.
  apply silent_bind; [apply silent_validate | intros _].
  apply silent_bind; [apply silent_encode_columns | intros m].
  apply silent_bind; [apply silent_compute_price_per_sqm | intros p].
  apply silent_make_input_df.
Qed.

Lemma assemble_ok d c :
  ~ out_of_range d ->
  encodes E d c ->
  city_rows E (city_code c) <> [] ->
  nan_or_not_finite (price_feature E (city_code c)) = false ->
  assemble E d
  = (inr (feature_vector d c (price_feature E (city_code c))), []).
Proof.
  intros Hv He Hrows Hfin. unfold assemble.
  rewrite (bind_pure _ _ _ (validate_accepts d Hv)).
  rewrite (bind_pure _ _ _ (encode_columns_ok d c He)).
  rewrite (bind_pure _ _ _ (compute_price_per_sqm_ok d c Hrows Hfin)).
  apply make_input_df_encoded.
Qed.

Lemma assemble_inv d df l :
  assemble E d = (inr df, l) ->
  exists c,
    ~ out_of_range d
    /\ encodes E d c
    /\ city_rows E (city_code c) <> []
    /\ nan_or_not_finite (price_feature E (city_code c)) = false
    /\ df = feature_vector d c (price_feature E (city_code c))
    /\ l = [].
Proof.
  intros H. pose proof (silent_eq _ _ _ (silent_assemble d) H) as ->.
  unfold assemble in H.
  apply bind_inv_inr in H as ([] & l1 & l1' & Hv & H & _).
  apply bind_inv_inr in H as (m & l2 & l2' & He & H & _).
  apply bind_inv_inr in H as (p & l3 & l3' & Hp & H & _).
  apply encode_columns_inv in He as (c & He & -> & _).
  apply compute_price_per_sqm_inv in Hp as (Hrows & -> & Hfin).
  rewrite make_input_df_encoded in H. injection H as <-.
  exists c. split; [| split; [exact He | by repeat split] ].
  intros Hout. apply validate_rejects in Hout as (detail & Hout).
  rewrite Hout in Hv. discriminate.
Qed.

(** ** Lines 113-158 *)

Lemma predict_and_explain_log df uid :
  exists r l,
    predict_and_explain E df uid = (r, ModelPredict df :: l)
    /\ forall ev, In ev l ->
         ev = ShapValues df \/ exists jpeg_path, ev = SaveJpeg jpeg_path.
Proof.
  unfold predict_and_explain.
  destruct (model_predict E df) as [e | [| p ps]]; simpl;
    [eexists _, []; split; [reflexivity | intros ? []] .. |].
  destruct (p <? 0)%float; simpl;
    [eexists _, []; split; [reflexivity | intros ? []] |].
  destruct (TreeExplainer E) as [e | ex]; simpl;
    [eexists _, []; split; [reflexivity | intros ? []] |].
  destruct (shap_values ex df) as [e | [| row rows]]; simpl;
    [eexists _, [_]; split; [reflexivity | intros ? [<- | []]; by left] .. |].
  destruct (waterfall_image E row _ _ _) as [e | img]; simpl;
    [eexists _, [_]; split; [reflexivity | intros ? [<- | []]; by left] |].
  destruct (save_jpeg E _ _) as [e | []]; simpl;
    eexists _, [_; _]; (split; [reflexivity |]);
    intros ? [<- | [<- | []]]; eauto.
Qed.

Lemma predict_and_explain_negative df uid p ps :
  model_predict E df = inr (p :: ps) ->
  (p <? 0)%float = true ->
  predict_and_explain E df uid
  = (inl (HTTPException 500 "Predicted price is negative, which is invalid"),
     [ModelPredict df]).
Proof.
  intros Hm Hneg. unfold predict_and_explain. rewrite Hm. simpl.
  rewrite Hneg. reflexivity.
Qed.

Lemma predict_and_explain_inv df uid r l :
  predict_and_explain E df uid = (inr r, l) ->
  exists ps ex row rows,
    model_predict E df = inr (predicted_price r :: ps)
    /\ (predicted_price r <? 0)%float = false
    /\ TreeExplainer E = inr ex
    /\ shap_values ex df = inr (row :: rows)
    /\ image_url r = "/static/shap_explanation_" ++ uid ++ ".jpeg"
    /\ factors_description r
       = describe E (columns df) row (iloc0 E df) description_header
    /\ l = [ ModelPredict df; ShapValues df;
             SaveJpeg ("static/shap_explanation_" ++ uid ++ ".jpeg") ].
Proof.
  unfold predict_and_explain.
  destruct (model_predict E df) as [e | [| p ps]]; simpl; [discriminate .. |].
  destruct (p <? 0)%float eqn:Hneg; simpl; [discriminate |].
  destruct (TreeExplainer E) as [e | ex]; simpl; [discriminate |].
  destruct (shap_values ex df) as [e | [| row rows]] eqn:Hs; simpl;
    [discriminate .. |].
  destruct (waterfall_image E row _ _ _) as [e | img]; simpl; [discriminate |].
  destruct (save_jpeg E _ _) as [e | []]; simpl; [discriminate |].
  intros [= <- <-]. simpl. exists ps, ex, row, rows. repeat split; done.
Qed.

(** ** The log of a call *)

Lemma predict_log d uid : snd (predict E d uid) = snd (predict_body E d uid).
Proof.
  unfold predict, handle.
  by destruct (predict_body E d uid) as [[[] | r] l].
Qed.

Lemma predict_body_assembled d uid df :
  assemble E d = (inr df, []) ->
  predict_body E d uid = predict_and_explain E df uid.
Proof.
  intros H. rewrite predict_body_split.
  exact (bind_pure _ (fun df => predict_and_explain E df uid) df H).
Qed.

Lemma predict_body_not_assembled d uid e :
  assemble E d = (inl e, []) ->
  predict_body E d uid = (inl e, []).
Proof. intros H. rewrite predict_body_split. by rewrite H. Qed.

(** The model is called at most once, on the frame of lines 100-110, and
    the explainer on no other frame. *)
Lemma predict_calls d uid :
  (exists e, assemble E d = (inl e, []) /\ snd (predict E d uid) = [])
  \/ (exists df l,
        assemble E d = (inr df, [])
        /\ snd (predict E d uid) = ModelPredict df :: l
        /\ forall ev, In ev l ->
             ev = ShapValues df \/ exists jpeg_path, ev = SaveJpeg jpeg_path).
Proof.
  rewrite predict_log. pose proof (silent_assemble d) as Hs.
  destruct (assemble E d) as [[e | df] l] eqn:Ha;
    unfold silent in Hs; simpl in Hs; subst l.
  - left. exists e. split; [done |].
    by rewrite (predict_body_not_assembled d uid e Ha).
  - right. rewrite (predict_body_assembled d uid df Ha).
    destruct (predict_and_explain_log df uid) as (r & l & Hr & Hl).
    exists df, l. rewrite Hr. done.
Qed.

Lemma predict_invokes_model d uid df :
  In (ModelPredict df) (snd (predict E d uid)) ->
  assemble E d = (inr df, [])
  /\ predict_body E d uid = predict_and_explain E df uid.
Proof.
  intros Hin.
  destruct (predict_calls d uid) as [(e & _ & Hl) | (df' & l & Ha & Hl & Hevs)].
  - rewrite Hl in Hin. destruct Hin.
  - rewrite Hl in Hin. destruct Hin as [[= ->] | Hin].
    + split; [done |]. by apply predict_body_assembled.
    + apply Hevs in Hin as [? | [? ?]]; discriminate.
Qed.

(** ** Requests that never reach the model *)

Lemma predict_not_assembled d uid status_code detail :
  assemble E d = (inl (HTTPException status_code detail), []) ->
  predict E d uid
  = (inl (HTTPException 500
            ("Prediction failed: " ++ str_HTTPException E status_code detail)),
     []).
Proof.
  intros H. unfold predict.
  rewrite (predict_body_not_assembled d uid _ H). reflexivity.
Qed.

Lemma assemble_out_of_range d :
  out_of_range d ->
  exists detail, assemble E d = (inl (HTTPException 400 detail), []).
Proof.
  intros H. apply validate_rejects in H as (detail & H).
  exists detail. unfold assemble. by rewrite H.
Qed.

Lemma assemble_invalid_category d i col value encoder m :
  ~ out_of_range d ->
  categorical_inputs d !! i = Some (col, value) ->
  encode_columns E (take i (categorical_inputs d)) ∅ = (inr m, []) ->
  label_encoders E !! col = Some encoder ->
  value ∉ classes_ encoder ->
  assemble E d
  = (inl (HTTPException 400
            (invalid_option_detail col value (classes_ encoder))), []).
Proof.
  intros Hv Hi Hpre Hlook Hin. unfold assemble.
  rewrite (bind_pure _ _ _ (validate_accepts d Hv)).
  replace (encode_columns E (categorical_inputs d) ∅)
    with (bind (encode_columns E (take i (categorical_inputs d)) ∅)
               (encode_columns E
                  ((col, value) :: drop (S i) (categorical_inputs d))))
    by (by rewrite <- encode_columns_app, take_drop_middle).
  rewrite Hpre. simpl.
  rewrite (encode_column_invalid col value encoder m Hlook Hin). reflexivity.
Qed.

Lemma assemble_no_city_data d c :
  ~ out_of_range d ->
  encodes E d c ->
  city_rows E (city_code c) = [] ->
  exists encoder,
    label_encoders E !! "City" = Some encoder
    /\ assemble E d
       = (inl (HTTPException 400
                 (no_city_data_detail (city_code c) (city d) (classes_ encoder))),
          []).
Proof.
  intros Hv He Hrows. pose proof He as ((encoder & Hlook & _) & _).
  exists encoder. split; [done |]. unfold assemble.
  rewrite (bind_pure _ _ _ (validate_accepts d Hv)).
  rewrite (bind_pure _ _ _ (encode_columns_ok d c He)).
  by rewrite (compute_price_per_sqm_no_data d c encoder Hlook Hrows).
Qed.

Lemma assemble_corrupt d c :
  ~ out_of_range d ->
  encodes E d c ->
  city_rows E (city_code c) <> [] ->
  nan_or_not_finite (city_mean E (city_code c)) = true ->
  nan_or_not_finite (global_median E) = true ->
  assemble E d
  = (inl (HTTPException 500
            "Cannot compute Price_per_sqm: invalid data in cleaned_data.csv"),
     []).
Proof.
  intros Hv He Hrows Hmean Hmed. unfold assemble.
  rewrite (bind_pure _ _ _ (validate_accepts d Hv)).
  rewrite (bind_pure _ _ _ (encode_columns_ok d c He)).
  by rewrite (compute_price_per_sqm_corrupt d c Hrows Hmean Hmed).
Qed.

(** A request that passes lines 50-110 reaches the model, with the frame
    of lines 100-110. *)
Lemma predict_reaches_model d uid c :
  ~ out_of_range d ->
  encodes E d c ->
  city_rows E (city_code c) <> [] ->
  nan_or_not_finite (price_feature E (city_code c)) = false ->
  exists l,
    snd (predict E d uid)
    = ModelPredict (feature_vector d c (price_feature E (city_code c))) :: l.
Proof.
  intros Hv He Hrows Hfin. rewrite predict_log.
  rewrite (predict_body_assembled d uid _ (assemble_ok d c Hv He Hrows Hfin)).
  destruct (predict_and_explain_log
              (feature_vector d c (price_feature E (city_code c))) uid)
    as (r & l & Hr & _).
  exists l. by rewrite Hr.
Qed.

End Properties.

(** ** The mean of a column without missing values *)

Lemma filter_notna_all (l : list float) :
  Forall (fun x => is_nan x = false) l -> List.filter notna l = l.
Proof.
  induction 1 as [| x l Hx _ IH]; [done |].
  simpl. unfold notna at 1. rewrite Hx. simpl. by rewrite IH.
Qed.

Lemma fill_missing_all (l : list float) :
  Forall (fun x => is_nan x = false) l ->
  map (fun x => if is_nan x then 0%float else x) l = l.
Proof.
  induction 1 as [| x l Hx _ IH]; [done |].
  simpl. by rewrite Hx, IH.
Qed.

Lemma Series_mean_no_missing (l : list float) :
  Forall (fun x => is_nan x = false) l -> Series_mean l = arithmetic_mean l.
Proof.
  intros H. unfold Series_mean, arithmetic_mean.
  rewrite filter_notna_all, fill_missing_all by done.
  destruct l; reflexivity.
Qed.

(** ** The depth of the pairwise sum *)

Lemma pairwise_sum_S fuel (l : list float) :
  pairwise_sum (S fuel) l
  = if (length l <? 8)%nat then sum_small l
    else if (length l <=? 128)%nat then sum_block l
    else (pairwise_sum fuel
            (take (length l / 2 - (length l / 2) mod 8) l)
          + pairwise_sum fuel
              (drop (length l / 2 - (length l / 2) mod 8) l))%float.
Proof. reflexivity. Qed.

Lemma pairwise_sum_O (l : list float) :
  pairwise_sum 0 l
  = if (length l <? 8)%nat then sum_small l
    else if (length l <=? 128)%nat then sum_block l
    else sum_block l.
Proof. reflexivity. Qed.

Lemma cut_bounds (n : nat) :
  (128 < n)%nat ->
  (1 <= n / 2 - (n / 2) mod 8 /\ n / 2 - (n / 2) mod 8 < n)%nat.
Proof.
  intros Hn.
  pose proof (Nat.div_mod_eq n 2) as Hd.
  pose proof (Nat.mod_upper_bound n 2 ltac:(lia)) as Hm.
  pose proof (Nat.mod_upper_bound (n / 2) 8 ltac:(lia)) as Hm8.
  lia.
Qed.

(** Any fuel from the length of the array on gives the same sum: the cuts
    never run out of fuel. *)
Lemma pairwise_sum_fuel fuel :
  forall fuel' (l : list float),
    (length l <= 128 + fuel)%nat -> (fuel <= fuel')%nat ->
    pairwise_sum fuel' l = pairwise_sum fuel l.
Proof.
  induction fuel as [| fuel IH]; intros fuel' l Hlen Hfuel.
  - rewrite pairwise_sum_O. destruct fuel' as [| fuel'].
    + by rewrite pairwise_sum_O.
    + rewrite pairwise_sum_S.
      destruct (length l <? 8)%nat; [done |].
      destruct (Nat.leb_spec (length l) 128); [done | lia].
  - destruct fuel' as [| fuel']; [lia |].
    rewrite !pairwise_sum_S.
    destruct (length l <? 8)%nat; [done |].
    destruct (Nat.leb_spec (length l) 128) as [| Hbig]; [done |].
    destruct (cut_bounds (length l) Hbig) as [Hlo Hhi].
    rewrite (IH fuel' (take _ l)), (IH fuel' (drop _ l)); try lia.
    + done.
    + rewrite length_drop. lia.
    + rewrite length_take. lia.
Qed.

Lemma np_sum_fuel fuel (l : list float) :
  (length l <= fuel)%nat -> np_sum l = (0 + pairwise_sum fuel l)%float.
Proof.
  intros H. unfold np_sum. f_equal.
  symmetry. apply pairwise_sum_fuel; lia.
Qed.

(** ** The mean of a column with a value that is not missing *)

Lemma filter_notna_present (l : list float) :
  (exists x, In x l /\ is_nan x = false) -> List.filter notna l <> [].
Proof.
  intros (x & Hin & Hx) Hnil.
  assert (In x (List.filter notna l)) as Hf.
  { apply filter_In. split; [done |]. unfold notna. by rewrite Hx. }
  rewrite Hnil in Hf. destruct Hf.
Qed.

Lemma Series_mean_present (l : list float) :
  (exists x, In x l /\ is_nan x = false) ->
  Series_mean l = mean_skipping_missing l.
Proof.
  intros H. apply filter_notna_present in H.
  unfold Series_mean, mean_skipping_missing.
  change (fun x : float => negb (is_nan x)) with notna.
  by destruct (List.filter notna l).
Qed.

Lemma is_finite_not_nan x :
  is_finite x = true -> nan_or_not_finite x = false.
Proof.
  unfold nan_or_not_finite, is_finite.
  destruct (is_nan x); simpl; [discriminate |].
  by destruct (is_infinity x).
Qed.

(** ** The text of the description, lines 148-151 *)

Lemma string_app_cons ch (a b : string) : String ch a ++ b = String ch (a ++ b).
Proof. reflexivity. Qed.

Lemma string_app_assoc (a b c : string) : (a ++ b) ++ c = a ++ b ++ c.
Proof.
  induction a as [| ch a IH]; [reflexivity |].
  by rewrite !string_app_cons, IH.
Qed.

Lemma string_app_empty_r (a : string) : a ++ "" = a.
Proof.
  induction a as [| ch a IH]; [reflexivity |].
  by rewrite string_app_cons, IH.
Qed.

Lemma concat_empty_cons (x : string) (xs : list string) :
  String.concat "" (x :: xs) = x ++ String.concat "" xs.
Proof. destruct xs; [symmetry; apply string_app_empty_r | reflexivity]. Qed.

(** ** Counting the lines of a description *)




Lemma describe_feature_lines E names shaps values description :
  describe E names shaps values description
  = description ++ String.concat "" (feature_lines E names shaps values).
Proof.
  revert shaps values description.
  induction names as [| n names IH]; intros shaps values description.
  - simpl. by rewrite string_app_empty_r.
  - destruct shaps as [| s shaps]; [simpl; by rewrite string_app_empty_r |].
    destruct values as [| v values]; [simpl; by rewrite string_app_empty_r |].
    cbn [describe feature_lines].
    by rewrite IH, concat_empty_cons, string_app_assoc.
Qed.

Lemma length_feature_lines E names shaps values :
  length shaps = length names ->
  length values = length names ->
  length (feature_lines E names shaps values) = length names.
Proof.
  revert shaps values.
  induction names as [| n names IH]; intros [| s shaps] [| v values];
    simpl; try done.
  intros [= Hs] [= Hv]. by rewrite IH.
Qed.

Lemma length_feature_lines_min E names shaps values :
  length (feature_lines E names shaps values)
  = (length names `min` (length shaps `min` length values))%nat.
Proof.
  revert shaps values.
  induction names as [| n names IH]; intros [| s shaps] [| v values];
    simpl; try lia.
  rewrite IH. lia.
Qed.


Lemma length_iloc0 E (df : frame) : length (iloc0 E df) = length df.
Proof. unfold iloc0. destruct (has_object_column df); by rewrite length_map. Qed.

(** ** Evaluating the example deployment *)

Ltac solve_encoded classes :=
  exists (Example.fitted classes);
  split; [vm_compute; reflexivity |];
  split; [apply (bool_decide_unpack _); vm_compute; exact I | vm_compute; reflexivity].

Lemma example_encodes (data : list record) model :
  encodes (Example.env data model) Example.request (mk_codes 1 0 1 1).
Proof.
  repeat split.
  - solve_encoded Example.city_classes.
  - solve_encoded Example.type_classes.
  - solve_encoded Example.furnished_classes.
  - solve_encoded Example.delivery_classes.
Defined.

Lemma example_encodes_city (data : list record) model name code :
  encoded (Example.env data model) "City" name code ->
  encodes (Example.env data model) (Example.with_city name Example.request)
    (mk_codes code 0 1 1).
Proof.
  intros H. split; [exact H |]. repeat split.
  - solve_encoded Example.type_classes.
  - solve_encoded Example.furnished_classes.
  - solve_encoded Example.delivery_classes.
Defined.

Lemma example_in_range name :
  ~ out_of_range (Example.with_city name Example.request).
Proof.
  unfold out_of_range. simpl.
  intros [H | [H | [H | H]]]; first [lia | vm_compute in H; discriminate].
Defined.

(** * The claims *)

(** C10. A [ValueError] raised in the body of the [try] comes out of
    [predict] as an [HTTPException] with status 400 and the message
    "Input error: " followed by the text of the exception; every other
    exception raised in the body (an [HTTPException] raised by the body
    itself included) comes out with status 500 and the message
    "Prediction failed: " followed by its text.  The calls made before the
    exception are the same. *)
Theorem exceptions_surface_as_400_or_500 (E : Env) d uid :
  (forall msg log,
     predict_body E d uid = (inl (ValueError msg), log) ->
     predict E d uid = (inl (HTTPException 400 ("Input error: " ++ msg)), log))
  /\ (forall e log,
        predict_body E d uid = (inl e, log) ->
        (forall msg, e <> ValueError msg) ->
        predict E d uid
        = (inl (HTTPException 500 ("Prediction failed: " ++ str_exn E e)), log)).
Proof.
  split.
  - intros msg log H. unfold predict. rewrite H. apply handle_ValueError.
  - intros e log H Hne. unfold predict. rewrite H.
    by apply handle_not_ValueError.
Qed.

Lemma exceptions_surface_as_400_or_500_witness :
  predict (Example.env Example.dataset Example.failing_model)
    Example.request "u1"
  = (inl (HTTPException 400 "Input error: Input X contains NaN."),
     [ModelPredict Example.request_frame])
  /\ predict (Example.env Example.dataset Example.negative_model)
       Example.request "u1"
     = (inl (HTTPException 500
               "Prediction failed: 500: Predicted price is negative, which is invalid"),
        [ModelPredict Example.request_frame]).
Proof.
  split.
  - apply (proj1 (exceptions_surface_as_400_or_500
                    (Example.env Example.dataset Example.failing_model)
                    Example.request "u1")
             "Input X contains NaN.").
    vm_compute. reflexivity.
  - apply (proj2 (exceptions_surface_as_400_or_500
                    (Example.env Example.dataset Example.negative_model)
                    Example.request "u1")
             (HTTPException 500 "Predicted price is negative, which is invalid")).
    + vm_compute. reflexivity.
    + intros msg. discriminate.
Defined.

(** C1, as the code has it.  For a request with bedrooms < 0, bathrooms < 0,
    area <= 0 or level < 0 the model is not invoked (the log of calls is
    empty), but the answer is not a client error: the [HTTPException] with
    status 400 raised at lines 51-58 is caught at line 161 and raised again
    with status 500. *)
Theorem out_of_range_request_answers_500 (E : Env) d uid :
  out_of_range d ->
  exists detail,
    predict E d uid
    = (inl (HTTPException 500
              ("Prediction failed: " ++ str_HTTPException E 400 detail)),
       []).
Proof.
  intros H. destruct (assemble_out_of_range E d H) as (detail & Ha).
  exists detail. by apply predict_not_assembled.
Qed.

Lemma out_of_range_request_answers_500_witness :
  out_of_range (Example.with_bedrooms (-1) Example.request)
  /\ exists detail,
       predict (Example.env Example.dataset Example.area_model)
         (Example.with_bedrooms (-1) Example.request) "u1"
       = (inl (HTTPException 500 ("Prediction failed: 400: " ++ detail)), []).
Proof.
  split.
  - left. reflexivity.
  - apply (out_of_range_request_answers_500
             (Example.env Example.dataset Example.area_model)).
    left. reflexivity.
Defined.

(** What the failing request of C1 gets. *)
Example negative_bedrooms_answer :
  predict (Example.env Example.dataset Example.area_model)
    (Example.with_bedrooms (-1) Example.request) "u1"
  = (inl (HTTPException 500
            "Prediction failed: 400: Bedrooms must be non-negative"), []).
Proof. vm_compute. reflexivity. Qed.

(** C2, as the code has it.  When the value submitted for one of the four
    categorical columns is not among the classes of that column's encoder
    (the columns before it having been encoded), the exception raised at
    line 73 has status 400 and a detail that lists exactly those classes,
    joined by ", "; [predict] answers with status 500, that exception's
    text after "Prediction failed: ". *)
Theorem invalid_category_answers_500 (E : Env) d uid (i : nat) col value
    encoder m :
  ~ out_of_range d ->
  categorical_inputs d !! i = Some (col, value) ->
  encode_columns E (take i (categorical_inputs d)) ∅ = (inr m, []) ->
  label_encoders E !! col = Some encoder ->
  value ∉ classes_ encoder ->
  predict E d uid
  = (inl (HTTPException 500
            ("Prediction failed: "
             ++ str_HTTPException E 400
                  ("Invalid " ++ col ++ ": '" ++ value ++ "'. Valid options: "
                   ++ String.concat ", " (classes_ encoder)))),
     []).
Proof.
  intros Hv Hi Hpre Hlook Hin. apply predict_not_assembled.
  by apply (assemble_invalid_category E d i col value encoder m).
Qed.

Lemma invalid_category_answers_500_witness :
  predict (Example.env Example.dataset Example.area_model)
    (Example.with_city "Atlantis" Example.request) "u1"
  = (inl (HTTPException 500
            "Prediction failed: 400: Invalid City: 'Atlantis'. Valid options: Alexandria, Cairo, Giza, Luxor"),
     []).
Proof.
  apply (invalid_category_answers_500
           (Example.env Example.dataset Example.area_model)
           (Example.with_city "Atlantis" Example.request) "u1"
           0%nat "City" "Atlantis" (Example.fitted Example.city_classes) ∅).
  - apply example_in_range.
  - reflexivity.
  - reflexivity.
  - vm_compute. reflexivity.
  - apply (bool_decide_eq_false_1 _). vm_compute. reflexivity.
Defined.

(** C6, as the code has it.  When the code of the submitted city matches no
    record of the reference dataset, the exception raised at line 84 has
    status 400 and a detail that gives the code, the submitted city and the
    classes of the City encoder (taken from [label_encoders], not from the
    dataset); [predict] answers with status 500, that exception's text
    after "Prediction failed: ", and the model is not invoked. *)
Theorem city_without_records_answers_500 (E : Env) d uid c :
  ~ out_of_range d ->
  encodes E d c ->
  city_rows E (city_code c) = [] ->
  exists encoder,
    label_encoders E !! "City" = Some encoder
    /\ predict E d uid
       = (inl (HTTPException 500
                 ("Prediction failed: "
                  ++ str_HTTPException E 400
                       ("No data for city code " ++ pretty (city_code c)
                        ++ " (decoded: " ++ city d ++ "). Valid cities: "
                        ++ String.concat ", " (classes_ encoder)))),
          []).
Proof.
  intros Hv He Hrows.
  destruct (assemble_no_city_data E d c Hv He Hrows) as (encoder & Hlook & Ha).
  exists encoder. split; [done |]. by apply predict_not_assembled.
Qed.

Lemma city_without_records_answers_500_witness :
  exists encoder,
    label_encoders (Example.env Example.dataset Example.area_model) !! "City"
    = Some encoder
    /\ predict (Example.env Example.dataset Example.area_model)
         (Example.with_city "Giza" Example.request) "u1"
       = (inl (HTTPException 500
                 ("Prediction failed: 400: No data for city code 2 (decoded: Giza). Valid cities: "
                  ++ String.concat ", " (classes_ encoder))),
          []).
Proof.
  apply (city_without_records_answers_500
           (Example.env Example.dataset Example.area_model)
           (Example.with_city "Giza" Example.request) "u1" (mk_codes 2 0 1 1)).
  - apply example_in_range.
  - apply example_encodes_city. solve_encoded Example.city_classes.
  - reflexivity.
Defined.

(** What the failing request of C6 gets. *)
Example city_without_records_answer :
  predict (Example.env Example.dataset Example.area_model)
    (Example.with_city "Giza" Example.request) "u1"
  = (inl (HTTPException 500
            "Prediction failed: 400: No data for city code 2 (decoded: Giza). Valid cities: Alexandria, Cairo, Giza, Luxor"),
     []).
Proof. vm_compute. reflexivity. Qed.

(** C3 fails on the example deployment: Alexandria has the records 1 and
    infinity, their mean is infinite, and the model is given the median of
    the whole dataset, 20. *)
Lemma derived_price_is_city_mean_fails :
  ~ derived_price_is_city_mean (Example.env Example.dataset Example.area_model).
Proof.
  intros H.
  specialize (H (Example.with_city "Alexandria" Example.request) "u1"
                (mk_codes 0 0 1 1) 20%float).
  assert (20%float = infinity) as Heq.
  { apply H.
    - vm_compute. left. reflexivity.
    - exists {| City := 0; Price_per_sqm := 1 |}. split.
      + vm_compute. left. reflexivity.
      + vm_compute. reflexivity. }
  apply (f_equal is_finite) in Heq. vm_compute in Heq. discriminate.
Qed.

(** C3, amended.  When at least one record whose City equals the code of
    the submitted city has a Price_per_sqm that is not missing, and the
    mean of Price_per_sqm over exactly those records, missing values left
    out (their sum as numpy adds it, a missing value counting as 0, over
    the number of values that are not missing), is finite, the model is
    invoked and the Price_per_sqm it is given is that mean; when none of
    those records is missing its price, it is the arithmetic mean of the
    column over them, every record counted. *)
Theorem derived_price_is_finite_city_mean (E : Env) d uid c :
  ~ out_of_range d ->
  encodes E d c ->
  (exists r,
     In r (List.filter (fun r => City r =? city_code c) (df_cleaned E))
     /\ is_nan (Price_per_sqm r) = false) ->
  is_finite
    (mean_skipping_missing
       (map Price_per_sqm
          (List.filter (fun r => City r =? city_code c) (df_cleaned E))))
  = true ->
  (exists l,
     snd (predict E d uid)
     = ModelPredict
         (feature_vector d c
            (mean_skipping_missing
               (map Price_per_sqm
                  (List.filter (fun r => City r =? city_code c)
                     (df_cleaned E)))))
         :: l)
  /\ (Forall (fun r => is_nan (Price_per_sqm r) = false)
             (List.filter (fun r => City r =? city_code c) (df_cleaned E)) ->
      mean_skipping_missing
        (map Price_per_sqm
           (List.filter (fun r => City r =? city_code c) (df_cleaned E)))
      = arithmetic_mean
          (map Price_per_sqm
             (List.filter (fun r => City r =? city_code c) (df_cleaned E)))).
Proof.
  intros Hv He (r & Hin & Hr) Hfin.
  change (List.filter (fun r => City r =? city_code c) (df_cleaned E))
    with (city_rows E (city_code c)) in *.
  assert (city_mean E (city_code c)
          = mean_skipping_missing (map Price_per_sqm (city_rows E (city_code c))))
    as Hmean.
  { apply Series_mean_present. exists (Price_per_sqm r).
    split; [by apply in_map | done]. }
  rewrite <- Hmean in *.
  assert (nan_or_not_finite (city_mean E (city_code c)) = false) as Hok
    by (by apply is_finite_not_nan).
  split.
  - assert (price_feature E (city_code c) = city_mean E (city_code c)) as Hp.
    { unfold price_feature. by rewrite Hok. }
    rewrite <- Hp. apply predict_reaches_model; try done.
    + intros Hnil. rewrite Hnil in Hin. destruct Hin.
    + by rewrite Hp.
  - intros Hall. apply Series_mean_no_missing. by apply Forall_map.
Qed.

Lemma derived_price_is_finite_city_mean_witness :
  (exists l,
     snd (predict (Example.env Example.dataset Example.area_model)
            Example.request "u1")
     = ModelPredict
         (feature_vector Example.request (mk_codes 1 0 1 1)
            (mean_skipping_missing [10; 20; 60]%float))
         :: l)
  /\ mean_skipping_missing [10; 20; 60]%float
     = arithmetic_mean [10; 20; 60]%float.
Proof.
  pose proof (derived_price_is_finite_city_mean
                (Example.env Example.dataset Example.area_model)
                Example.request "u1" (mk_codes 1 0 1 1)) as H.
  destruct H as [H1 H2].
  - apply (example_in_range "Cairo").
  - apply example_encodes.
  - exists {| City := 1; Price_per_sqm := 10 |}. split.
    + vm_compute. left. reflexivity.
    + vm_compute. reflexivity.
  - vm_compute. reflexivity.
  - split; [exact H1 |]. apply H2.
    vm_compute. repeat constructor.
Defined.

(** The mean of ten prices of 0.1 is 0.1: the sum is made in pairs, not
    from left to right. *)
Example mean_of_ten_tenths :
  Series_mean (repeat (1 / 10)%float 10) = (1 / 10)%float
  /\ (fold_left PrimFloat.add (repeat (1 / 10)%float 10) 0 / 10)%float
     <> (1 / 10)%float.
Proof.
  split; [vm_compute; reflexivity |].
  intros H. apply (f_equal (fun x => (x =? 1 / 10)%float)) in H.
  vm_compute in H. discriminate.
Qed.

(** A missing price is left out of the mean. *)
Example mean_skips_missing :
  Series_mean [nan; 5; 10]%float = 7.5%float.
Proof. vm_compute. reflexivity. Qed.

(** C5. When the submitted city has records but their mean is NaN or
    infinite: if the median of Price_per_sqm over the whole dataset is
    finite, the model is invoked with that median in the Price_per_sqm
    column; if the median is NaN or infinite too, [predict] raises an
    [HTTPException] with status 500 and the model is not invoked. *)
Theorem price_falls_back_to_global_median (E : Env) d uid c :
  ~ out_of_range d ->
  encodes E d c ->
  city_rows E (city_code c) <> [] ->
  nan_or_not_finite (city_mean E (city_code c)) = true ->
  (nan_or_not_finite (global_median E) = false ->
   exists l,
     snd (predict E d uid)
     = ModelPredict (feature_vector d c (global_median E)) :: l)
  /\ (nan_or_not_finite (global_median E) = true ->
      exists detail,
        predict E d uid = (inl (HTTPException 500 detail), [])).
Proof.
  intros Hv He Hrows Hmean. split; intros Hmed.
  - assert (price_feature E (city_code c) = global_median E) as Hp.
    { unfold price_feature. by rewrite Hmean. }
    rewrite <- Hp. apply predict_reaches_model; try done. by rewrite Hp.
  - eexists. apply predict_not_assembled.
    by apply (assemble_corrupt E d c).
Qed.

Lemma price_falls_back_to_global_median_witness :
  (exists l,
     snd (predict (Example.env Example.dataset Example.area_model)
            (Example.with_city "Luxor" Example.request) "u1")
     = ModelPredict
         (feature_vector (Example.with_city "Luxor" Example.request)
            (mk_codes 3 0 1 1)
            (global_median (Example.env Example.dataset Example.area_model)))
         :: l)
  /\ (exists detail,
        predict (Example.env Example.corrupt_dataset Example.area_model)
          Example.request "u1"
        = (inl (HTTPException 500 detail), [])).
Proof.
  split.
  - apply (proj1 (price_falls_back_to_global_median
                    (Example.env Example.dataset Example.area_model)
                    (Example.with_city "Luxor" Example.request) "u1"
                    (mk_codes 3 0 1 1)
                    (example_in_range "Luxor")
                    (example_encodes_city _ _ "Luxor" 3
                       ltac:(solve_encoded Example.city_classes))
                    ltac:(vm_compute; discriminate)
                    ltac:(vm_compute; reflexivity))).
    vm_compute. reflexivity.
  - apply (proj2 (price_falls_back_to_global_median
                    (Example.env Example.corrupt_dataset Example.area_model)
                    Example.request "u1" (mk_codes 1 0 1 1)
                    (example_in_range "Cairo")
                    (example_encodes _ _)
                    ltac:(vm_compute; discriminate)
                    ltac:(vm_compute; reflexivity))).
    vm_compute. reflexivity.
Defined.

(** The fallback of C5 on the example deployment: Luxor's only record has
    no price, and the model is given the median of the dataset, 20. *)
Example luxor_gets_the_global_median :
  head (snd (predict (Example.env Example.dataset Example.area_model)
               (Example.with_city "Luxor" Example.request) "u1"))
  = Some (ModelPredict
            (feature_vector (Example.with_city "Luxor" Example.request)
               (mk_codes 3 0 1 1) 20)).
Proof. vm_compute. reflexivity. Qed.

(** C4. When the model, invoked on the frame of the request, yields a
    negative price, [predict] raises an [HTTPException] with status 500 and
    nothing is called after the model; when [predict] returns, the
    [predicted_price] of the answer is the first value the model yielded
    for that frame, unchanged, and it is not below zero. *)
Theorem negative_prediction_is_server_error (E : Env) d uid :
  (forall df p ps,
     In (ModelPredict df) (snd (predict E d uid)) ->
     model_predict E df = inr (p :: ps) ->
     (p <? 0)%float = true ->
     exists detail,
       predict E d uid = (inl (HTTPException 500 detail), [ModelPredict df]))
  /\ (forall r log,
        predict E d uid = (inr r, log) ->
        exists df ps l,
          log = ModelPredict df :: l
          /\ model_predict E df = inr (predicted_price r :: ps)
          /\ (predicted_price r <? 0)%float = false).
Proof.
  split.
  - intros df p ps Hin Hm Hneg.
    apply predict_invokes_model in Hin as [_ Hbody].
    unfold predict. rewrite Hbody.
    rewrite (predict_and_explain_negative E df uid p ps Hm Hneg).
    eexists. reflexivity.
  - intros r log H.
    assert (predict_body E d uid = (inr r, log)) as Hbody.
    { unfold predict, handle in H.
      destruct (predict_body E d uid) as [[[] | r'] l]; try discriminate.
      exact H. }
    destruct (predict_calls E d uid) as [(e & Ha & _) | (df & l & Ha & _ & _)].
    + rewrite (predict_body_not_assembled E d uid e Ha) in Hbody. discriminate.
    + rewrite (predict_body_assembled E d uid df Ha) in Hbody.
      apply predict_and_explain_inv in Hbody
        as (ps & ex & row & rows & Hm & Hneg & _ & _ & _ & _ & ->).
      eauto 10.
Qed.

Lemma negative_prediction_is_server_error_witness :
  (exists detail,
     predict (Example.env Example.dataset Example.negative_model)
       Example.request "u1"
     = (inl (HTTPException 500 detail), [ModelPredict Example.request_frame]))
  /\ (exists df ps l,
        [ ModelPredict Example.request_frame;
          ShapValues Example.request_frame;
          SaveJpeg "static/shap_explanation_u1.jpeg" ]
        = ModelPredict df :: l
        /\ model_predict (Example.env Example.dataset Example.area_model) df
           = inr (predicted_price Example.answer :: ps)
        /\ (predicted_price Example.answer <? 0)%float = false).
Proof.
  split.
  - apply (proj1 (negative_prediction_is_server_error
                    (Example.env Example.dataset Example.negative_model)
                    Example.request "u1")
             Example.request_frame (-1)%float []).
    + vm_compute. left. reflexivity.
    + reflexivity.
    + vm_compute. reflexivity.
  - apply (proj2 (negative_prediction_is_server_error
                    (Example.env Example.dataset Example.area_model)
                    Example.request "u1")
             Example.answer).
    vm_compute. reflexivity.
Defined.

(** C7. Whenever the model is invoked, the frame it is given has the
    columns Type, Bedrooms, Bathrooms, Area, Furnished, Level,
    Delivery_Term, City, Price_per_sqm in this order; the four categorical
    columns hold the codes the encoders give for the submitted strings, the
    numeric columns the submitted numbers, and the last column the derived
    Price_per_sqm.  The model is invoked on no other frame, the explainer
    is invoked on no other frame, and a call that returns has invoked the
    explainer on it. *)
Theorem feature_vector_order (E : Env) d uid df :
  In (ModelPredict df) (snd (predict E d uid)) ->
  columns df = feature_columns
  /\ (exists c,
        encodes E d c
        /\ df = feature_vector d c (price_feature E (city_code c)))
  /\ (forall df', In (ModelPredict df') (snd (predict E d uid)) -> df' = df)
  /\ (forall df', In (ShapValues df') (snd (predict E d uid)) -> df' = df)
  /\ (forall r, fst (predict E d uid) = inr r ->
                In (ShapValues df) (snd (predict E d uid))).
Proof.
  intros Hin. pose proof Hin as Hin0.
  apply predict_invokes_model in Hin as [Ha Hbody].
  apply assemble_inv in Ha as Hinv.
  destruct Hinv as (c & _ & He & _ & _ & Hdf & _).
  split; [by subst df |]. split; [by exists c |].
  destruct (predict_calls E d uid) as [(e & _ & Hl) | (df0 & l & Ha0 & Hl & Hevs)].
  { rewrite Hl in Hin0. destruct Hin0. }
  rewrite Ha in Ha0. injection Ha0 as <-.
  split; [| split].
  - intros df'. rewrite Hl. intros [[= <-] | Hin']; [done |].
    apply Hevs in Hin' as [? | [? ?]]; discriminate.
  - intros df'. rewrite Hl. intros [? | Hin']; [discriminate |].
    apply Hevs in Hin' as [[= ->] | [? ?]]; [done | discriminate].
  - intros r Hr. rewrite predict_log, Hbody.
    unfold predict, handle in Hr. rewrite Hbody in Hr.
    destruct (predict_and_explain E df uid) as [[[] | r'] l'] eqn:Hpe;
      try discriminate.
    apply predict_and_explain_inv in Hpe
      as (ps & ex & row & rows & _ & _ & _ & _ & _ & _ & ->).
    simpl. right. by left.
Qed.

Lemma feature_vector_order_witness :
  columns Example.request_frame
  = [ "Type"; "Bedrooms"; "Bathrooms"; "Area"; "Furnished"; "Level";
      "Delivery_Term"; "City"; "Price_per_sqm" ]
  /\ In (ShapValues Example.request_frame)
        (snd (predict (Example.env Example.dataset Example.area_model)
                Example.request "u1")).
Proof.
  pose proof (feature_vector_order
                (Example.env Example.dataset Example.area_model)
                Example.request "u1" Example.request_frame) as H.
  destruct H as (Hcols & _ & _ & _ & Hshap).
  - vm_compute. left. reflexivity.
  - split; [exact Hcols |].
    destruct (predict (Example.env Example.dataset Example.area_model)
                Example.request "u1") as [[e | r] log] eqn:Hp.
    + vm_compute in Hp. discriminate.
    + by apply (Hshap r).
Defined.




(** The answer to the example request. *)
Example example_answer :
  predict (Example.env Example.dataset Example.area_model) Example.request "u1"
  = (inr Example.answer,
     [ ModelPredict Example.request_frame;
       ShapValues Example.request_frame;
       SaveJpeg "static/shap_explanation_u1.jpeg" ]).
Proof. vm_compute. reflexivity. Qed.


(** With a number of bedrooms that no 64-bit integer holds, the row is an
    object Series and its integers are printed as integers. *)
Example large_integer_is_printed_as_integer :
  feature_line Variant.deployed "Bedrooms" 1%float
    (nth 1 (iloc0 Variant.deployed
              (feature_vector
                 (Variant.with_numbers (2 ^ 64) 2 150 4 Example.request)
                 (mk_codes 1 0 1 1) 30))
       (IntCell 0))
  = "- Bedrooms: Value = 18446744073709551616, increased price by 1.00 units."
    ++ String (Ascii.ascii_of_nat 10) "".
Proof. vm_compute. reflexivity. Qed.

(** * Further properties of the endpoint *)

Section MoreProperties.

Variable E : Env.

Lemma assemble_missing_encoder d (i : nat) col value m :
  ~ out_of_range d ->
  categorical_inputs d !! i = Some (col, value) ->
  encode_columns E (take i (categorical_inputs d)) ∅ = (inr m, []) ->
  label_encoders E !! col = None ->
  assemble E d
  = (inl (HTTPException 500 ("LabelEncoder for " ++ col ++ " not found")), []).
Proof.
  intros Hv Hi Hpre Hlook. unfold assemble.
  rewrite (bind_pure _ _ _ (validate_accepts d Hv)).
  replace (encode_columns E (categorical_inputs d) ∅)
    with (bind (encode_columns E (take i (categorical_inputs d)) ∅)
               (encode_columns E
                  ((col, value) :: drop (S i) (categorical_inputs d))))
    by (by rewrite <- encode_columns_app, take_drop_middle).
  rewrite Hpre. simpl. unfold encode_column. rewrite Hlook. reflexivity.
Qed.

Lemma validate_detail d :
  (bedrooms d < 0 ->
   validate d = (inl (HTTPException 400 "Bedrooms must be non-negative"), []))
  /\ (0 <= bedrooms d -> bathrooms d < 0 ->
      validate d = (inl (HTTPException 400 "Bathrooms must be non-negative"), []))
  /\ (0 <= bedrooms d -> 0 <= bathrooms d -> (area d <=? 0)%float = true ->
      validate d = (inl (HTTPException 400 "Area must be positive"), []))
  /\ (0 <= bedrooms d -> 0 <= bathrooms d -> (area d <=? 0)%float = false ->
      level d < 0 ->
      validate d = (inl (HTTPException 400 "Level must be non-negative"), [])).
Proof.
  unfold validate. repeat split; intros.
  - destruct (Z.ltb_spec (bedrooms d) 0); [done | lia].
  - destruct (Z.ltb_spec (bedrooms d) 0); [lia |].
    destruct (Z.ltb_spec (bathrooms d) 0); [done | lia].
  - destruct (Z.ltb_spec (bedrooms d) 0); [lia |].
    destruct (Z.ltb_spec (bathrooms d) 0); [lia |].
    by destruct (area d <=? 0)%float.
  - destruct (Z.ltb_spec (bedrooms d) 0); [lia |].
    destruct (Z.ltb_spec (bathrooms d) 0); [lia |].
    destruct (area d <=? 0)%float; [done |].
    destruct (Z.ltb_spec (level d) 0); [done | lia].
Qed.

Lemma predict_not_validated d uid detail :
  validate d = (inl (HTTPException 400 detail), []) ->
  predict E d uid
  = (inl (HTTPException 500
            ("Prediction failed: " ++ str_HTTPException E 400 detail)), []).
Proof.
  intros H. apply predict_not_assembled. unfold assemble. by rewrite H.
Qed.

Lemma nan_or_not_finite_false x :
  nan_or_not_finite x = false -> is_nan x = false /\ is_finite x = true.
Proof.
  unfold nan_or_not_finite. destruct (is_nan x), (is_finite x); by intros.
Qed.

Lemma city_rows_record code :
  city_rows E code <> [] ->
  exists r, In r (df_cleaned E) /\ City r = code.
Proof.
  unfold city_rows. intros H.
  destruct (List.filter _ _) as [| r rows] eqn:Hf; [done |].
  assert (In r (List.filter (fun r => City r =? code) (df_cleaned E))) as Hin
    by (rewrite Hf; by left).
  apply filter_In in Hin as [Hin Heq]. exists r. split; [done | lia].
Qed.

End MoreProperties.

(** X1. When one of the four categorical columns has no encoder in the
    table (the columns before it having been encoded), the exception raised
    at line 70 has status 500 and names the column; [predict] answers with
    status 500 and the model is not invoked. *)
Theorem missing_encoder_answers_500 (E : Env) d uid (i : nat) col value m :
  ~ out_of_range d ->
  categorical_inputs d !! i = Some (col, value) ->
  encode_columns E (take i (categorical_inputs d)) ∅ = (inr m, []) ->
  label_encoders E !! col = None ->
  predict E d uid
  = (inl (HTTPException 500
            ("Prediction failed: "
             ++ str_HTTPException E 500
                  ("LabelEncoder for " ++ col ++ " not found"))),
     []).
Proof.
  intros Hv Hi Hpre Hlook. apply predict_not_assembled.
  by apply (assemble_missing_encoder E d i col value m).
Qed.

Lemma missing_encoder_answers_500_witness :
  predict Variant.without_type_encoder Example.request "u1"
  = (inl (HTTPException 500
            "Prediction failed: 500: LabelEncoder for Type not found"), []).
Proof.
  apply (missing_encoder_answers_500 Variant.without_type_encoder
           Example.request "u1" 1%nat "Type" "Apartment" (<["City" := 1]> ∅)).
  - apply (example_in_range "Cairo").
  - reflexivity.
  - vm_compute. reflexivity.
  - vm_compute. reflexivity.
Defined.

(** X2. The four numeric checks run in the order bedrooms, bathrooms, area,
    level, and the answer carries the message of the first one that fails,
    whatever the later fields hold. *)
Theorem validation_reports_first_violation (E : Env) d uid :
  (bedrooms d < 0 ->
   predict E d uid
   = (inl (HTTPException 500
             ("Prediction failed: "
              ++ str_HTTPException E 400 "Bedrooms must be non-negative")), []))
  /\ (0 <= bedrooms d -> bathrooms d < 0 ->
      predict E d uid
      = (inl (HTTPException 500
                ("Prediction failed: "
                 ++ str_HTTPException E 400 "Bathrooms must be non-negative")),
         []))
  /\ (0 <= bedrooms d -> 0 <= bathrooms d -> (area d <=? 0)%float = true ->
      predict E d uid
      = (inl (HTTPException 500
                ("Prediction failed: "
                 ++ str_HTTPException E 400 "Area must be positive")), []))
  /\ (0 <= bedrooms d -> 0 <= bathrooms d -> (area d <=? 0)%float = false ->
      level d < 0 ->
      predict E d uid
      = (inl (HTTPException 500
                ("Prediction failed: "
                 ++ str_HTTPException E 400 "Level must be non-negative")), [])).
Proof.
  destruct (validate_detail d) as (H1 & H2 & H3 & H4).
  repeat split; intros; apply predict_not_validated; auto.
Qed.

Lemma validation_reports_first_violation_witness :
  predict Variant.deployed
    (Variant.with_numbers (-1) (-2) 0 (-3) Example.request) "u1"
  = (inl (HTTPException 500
            "Prediction failed: 400: Bedrooms must be non-negative"), [])
  /\ predict Variant.deployed
       (Variant.with_numbers 3 (-2) 0 (-3) Example.request) "u1"
     = (inl (HTTPException 500
               "Prediction failed: 400: Bathrooms must be non-negative"), [])
  /\ predict Variant.deployed
       (Variant.with_numbers 3 2 0 (-3) Example.request) "u1"
     = (inl (HTTPException 500
               "Prediction failed: 400: Area must be positive"), [])
  /\ predict Variant.deployed
       (Variant.with_numbers 3 2 150 (-3) Example.request) "u1"
     = (inl (HTTPException 500
               "Prediction failed: 400: Level must be non-negative"), []).
Proof.
  split; [| split; [| split]].
  - apply (proj1 (validation_reports_first_violation Variant.deployed
                    (Variant.with_numbers (-1) (-2) 0 (-3) Example.request)
                    "u1")).
    reflexivity.
  - apply (proj1 (proj2 (validation_reports_first_violation Variant.deployed
                    (Variant.with_numbers 3 (-2) 0 (-3) Example.request)
                    "u1"))).
    + discriminate.
    + reflexivity.
  - apply (proj1 (proj2 (proj2 (validation_reports_first_violation
                    Variant.deployed
                    (Variant.with_numbers 3 2 0 (-3) Example.request)
                    "u1")))).
    + discriminate.
    + discriminate.
    + vm_compute. reflexivity.
  - apply (proj2 (proj2 (proj2 (validation_reports_first_violation
                    Variant.deployed
                    (Variant.with_numbers 3 2 150 (-3) Example.request)
                    "u1")))).
    + discriminate.
    + discriminate.
    + vm_compute. reflexivity.
    + reflexivity.
Defined.

(** X3. An area that is NaN is not turned down by the check of line 55
    (NaN <= 0 is false): with the other numbers in range, such a request
    reaches the model, with NaN in the Area column. *)
Theorem nan_area_reaches_model (E : Env) d uid c :
  area d = nan ->
  0 <= bedrooms d -> 0 <= bathrooms d -> 0 <= level d ->
  encodes E d c ->
  city_rows E (city_code c) <> [] ->
  nan_or_not_finite (price_feature E (city_code c)) = false ->
  exists df l,
    snd (predict E d uid) = ModelPredict df :: l
    /\ df = feature_vector d c (price_feature E (city_code c))
    /\ df !! 3%nat = Some ("Area", FloatCell nan).
Proof.
  intros Harea Hb Hba Hlv He Hrows Hfin.
  assert (~ out_of_range d) as Hv.
  { unfold out_of_range. rewrite Harea.
    intros [? | [? | [Hcmp | ?]]]; try lia.
    vm_compute in Hcmp. discriminate. }
  destruct (predict_reaches_model E d uid c Hv He Hrows Hfin) as [l Hl].
  eexists _, l. split; [exact Hl |]. split; [reflexivity |].
  simpl. by rewrite Harea.
Qed.

Lemma nan_area_reaches_model_witness :
  exists df l,
    snd (predict Variant.deployed
           (Variant.with_numbers 3 2 nan 4 Example.request) "u1")
    = ModelPredict df :: l
    /\ df = feature_vector (Variant.with_numbers 3 2 nan 4 Example.request)
              (mk_codes 1 0 1 1) (price_feature Variant.deployed 1)
    /\ df !! 3%nat = Some ("Area", FloatCell nan).
Proof.
  apply (nan_area_reaches_model Variant.deployed
           (Variant.with_numbers 3 2 nan 4 Example.request) "u1"
           (mk_codes 1 0 1 1)).
  - reflexivity.
  - discriminate.
  - discriminate.
  - discriminate.
  - apply (example_encodes Example.dataset Example.area_model).
  - vm_compute. discriminate.
  - vm_compute. reflexivity.
Defined.

(** X4. Whenever the model is invoked, the Price_per_sqm it is given is
    neither NaN nor infinite, and the dataset holds at least one record
    whose City is the code in the City column of the frame. *)
Theorem model_input_price_is_finite (E : Env) d uid df :
  In (ModelPredict df) (snd (predict E d uid)) ->
  exists code p,
    df !! 7%nat = Some ("City", IntCell code)
    /\ df !! 8%nat = Some ("Price_per_sqm", FloatCell p)
    /\ is_nan p = false
    /\ is_finite p = true
    /\ exists r, In r (df_cleaned E) /\ City r = code.
Proof.
  intros Hin. apply predict_invokes_model in Hin as [Ha _].
  apply assemble_inv in Ha as (c & _ & _ & Hrows & Hfin & -> & _).
  apply nan_or_not_finite_false in Hfin as [Hnan Hfinite].
  exists (city_code c), (price_feature E (city_code c)).
  repeat split; try done. by apply city_rows_record.
Qed.

Lemma model_input_price_is_finite_witness :
  exists code p,
    Example.request_frame !! 7%nat = Some ("City", IntCell code)
    /\ Example.request_frame !! 8%nat = Some ("Price_per_sqm", FloatCell p)
    /\ is_nan p = false
    /\ is_finite p = true
    /\ exists r, In r Example.dataset /\ City r = code.
Proof.
  apply (model_input_price_is_finite Variant.deployed Example.request "u1"
           Example.request_frame).
  vm_compute. left. reflexivity.
Defined.

(** X5. Whenever the model is invoked, the numeric columns of the frame
    hold the submitted numbers and these are in range: bedrooms,
    bathrooms and level are not negative and the test area <= 0 is
    false. *)
Theorem model_input_numbers_in_range (E : Env) d uid df :
  In (ModelPredict df) (snd (predict E d uid)) ->
  df !! 1%nat = Some ("Bedrooms", IntCell (bedrooms d))
  /\ df !! 2%nat = Some ("Bathrooms", IntCell (bathrooms d))
  /\ df !! 3%nat = Some ("Area", FloatCell (area d))
  /\ df !! 5%nat = Some ("Level", IntCell (level d))
  /\ 0 <= bedrooms d
  /\ 0 <= bathrooms d
  /\ (area d <=? 0)%float = false
  /\ 0 <= level d.
Proof.
  intros Hin. apply predict_invokes_model in Hin as [Ha _].
  apply assemble_inv in Ha as (c & Hv & _ & _ & _ & -> & _).
  unfold out_of_range in Hv.
  repeat split; try done; try lia.
  destruct (area d <=? 0)%float; [tauto | done].
Qed.

Lemma model_input_numbers_in_range_witness :
  Example.request_frame !! 1%nat = Some ("Bedrooms", IntCell 3)
  /\ Example.request_frame !! 2%nat = Some ("Bathrooms", IntCell 2)
  /\ Example.request_frame !! 3%nat = Some ("Area", FloatCell 150)
  /\ Example.request_frame !! 5%nat = Some ("Level", IntCell 4)
  /\ 0 <= 3 /\ 0 <= 2 /\ (150 <=? 0)%float = false /\ 0 <= 4.
Proof.
  apply (model_input_numbers_in_range Variant.deployed Example.request "u1"
           Example.request_frame).
  vm_compute. left. reflexivity.
Defined.

Section CallOrder.

Variable E : Env.

Lemma predict_and_explain_calls df uid :
  let log := snd (predict_and_explain E df uid) in
  log = [ModelPredict df]
  \/ log = [ModelPredict df; ShapValues df]
  \/ log = [ModelPredict df; ShapValues df; SaveJpeg (jpeg_path_of uid)].
Proof.
  unfold predict_and_explain, jpeg_path_of.
  destruct (model_predict E df) as [e | [| p ps]]; simpl; auto.
  destruct (p <? 0)%float; simpl; auto.
  destruct (TreeExplainer E) as [e | ex]; simpl; auto.
  destruct (shap_values ex df) as [e | [| row rows]]; simpl; auto.
  destruct (waterfall_image E row _ _ _) as [e | img]; simpl; auto.
  destruct (save_jpeg E _ _) as [e | []]; simpl; auto.
Qed.

Lemma predict_log_shape d uid :
  snd (predict E d uid) = []
  \/ exists df,
       assemble E d = (inr df, [])
       /\ (snd (predict E d uid) = [ModelPredict df]
           \/ snd (predict E d uid) = [ModelPredict df; ShapValues df]
           \/ snd (predict E d uid)
              = [ModelPredict df; ShapValues df; SaveJpeg (jpeg_path_of uid)]).
Proof.
  destruct (predict_calls E d uid) as [(e & _ & Hl) | (df & l & Ha & _ & _)];
    [by left |].
  right. exists df. split; [done |].
  rewrite predict_log, (predict_body_assembled E d uid df Ha).
  apply predict_and_explain_calls.
Qed.

Lemma predict_returns d uid r log :
  predict E d uid = (inr r, log) -> predict_body E d uid = (inr r, log).
Proof.
  unfold predict, handle.
  destruct (predict_body E d uid) as [[[] | r'] l]; try discriminate. done.
Qed.

End CallOrder.

(** ** Strings: cancelling a suffix *)

Lemma string_length_app (a b : string) :
  String.length (a ++ b) = (String.length a + String.length b)%nat.
Proof.
  induction a as [| ch a IH]; [reflexivity |].
  rewrite string_app_cons. simpl. by rewrite IH.
Qed.

Lemma string_app_inv_tail (x y s : string) : x ++ s = y ++ s -> x = y.
Proof.
  revert y. induction x as [| ch x IH]; intros [| ch' y] H.
  - reflexivity.
  - apply (f_equal String.length) in H.
    rewrite !string_length_app in H. simpl in H. lia.
  - apply (f_equal String.length) in H.
    rewrite !string_length_app in H. simpl in H. lia.
  - rewrite !string_app_cons in H. injection H as -> H.
    by rewrite (IH y H).
Qed.

Lemma jpeg_path_of_inj (u1 u2 : string) :
  jpeg_path_of u1 = jpeg_path_of u2 -> u1 = u2.
Proof.
  unfold jpeg_path_of. intros H.
  assert (u1 ++ ".jpeg" = u2 ++ ".jpeg") as H'.
  { repeat (rewrite !string_app_cons in H; injection H as H). exact H. }
  by apply string_app_inv_tail in H'.
Qed.

(** X6. In one call the model, the explainer and the file system are
    called at most once each and in this order, the explainer on the frame
    the model was given and the file system on the path
    static/shap_explanation_<unique_id>.jpeg: the calls of a call are an
    initial part of these three. *)
Theorem calls_are_made_in_order (E : Env) d uid :
  snd (predict E d uid) = []
  \/ exists df,
       snd (predict E d uid) = [ModelPredict df]
       \/ snd (predict E d uid) = [ModelPredict df; ShapValues df]
       \/ snd (predict E d uid)
          = [ ModelPredict df; ShapValues df;
              SaveJpeg ("static/shap_explanation_" ++ uid ++ ".jpeg") ].
Proof.
  destruct (predict_log_shape E d uid) as [H | (df & _ & H)]; [by left |].
  right. by exists df.
Qed.

(** X7. A call that returns has made all three calls, and the [image_url]
    of its answer is "/" followed by the path the image was saved under. *)
Theorem image_url_is_the_saved_path (E : Env) d uid r log :
  predict E d uid = (inr r, log) ->
  exists df jpeg_path,
    log = [ModelPredict df; ShapValues df; SaveJpeg jpeg_path]
    /\ jpeg_path = "static/shap_explanation_" ++ uid ++ ".jpeg"
    /\ image_url r = "/" ++ jpeg_path.
Proof.
  intros H. apply predict_returns in H.
  destruct (predict_calls E d uid) as [(e & Ha & _) | (df & l & Ha & _ & _)].
  { rewrite (predict_body_not_assembled E d uid e Ha) in H. discriminate. }
  rewrite (predict_body_assembled E d uid df Ha) in H.
  apply predict_and_explain_inv in H
    as (ps & ex & row & rows & _ & _ & _ & _ & Hurl & _ & ->).
  exists df, ("static/shap_explanation_" ++ uid ++ ".jpeg").
  split; [done |]. split; [done |]. exact Hurl.
Qed.

Lemma image_url_is_the_saved_path_witness :
  exists df jpeg_path,
    [ ModelPredict Example.request_frame; ShapValues Example.request_frame;
      SaveJpeg "static/shap_explanation_u1.jpeg" ]
    = [ModelPredict df; ShapValues df; SaveJpeg jpeg_path]
    /\ jpeg_path = "static/shap_explanation_u1.jpeg"
    /\ image_url Example.answer = "/" ++ jpeg_path.
Proof.
  apply (image_url_is_the_saved_path Variant.deployed Example.request "u1"
           Example.answer).
  vm_compute. reflexivity.
Defined.

(** X8. Two calls that were given distinct identifiers never save under
    the same path, whatever the deployments and the requests: no call
    writes over the file of another. *)
Theorem distinct_identifiers_distinct_files (E1 E2 : Env) d1 d2 u1 u2 jpeg_path :
  u1 <> u2 ->
  In (SaveJpeg jpeg_path) (snd (predict E1 d1 u1)) ->
  ~ In (SaveJpeg jpeg_path) (snd (predict E2 d2 u2)).
Proof.
  assert (forall (E : Env) d u,
            In (SaveJpeg jpeg_path) (snd (predict E d u)) ->
            jpeg_path = jpeg_path_of u) as Hpath.
  { intros E d u Hin.
    destruct (predict_log_shape E d u) as [H | (df & _ & [H | [H | H]])];
      rewrite H in Hin; simpl in Hin.
    - destruct Hin.
    - destruct Hin as [? | []]; discriminate.
    - destruct Hin as [? | [? | []]]; discriminate.
    - destruct Hin as [? | [? | [[= <-] | []]]]; try discriminate. done. }
  intros Hne H1 H2. apply Hpath in H1, H2. apply Hne.
  apply jpeg_path_of_inj. congruence.
Qed.

Lemma distinct_identifiers_distinct_files_witness :
  ~ In (SaveJpeg "static/shap_explanation_u1.jpeg")
       (snd (predict Variant.short_deployed Example.request "u2")).
Proof.
  apply (distinct_identifiers_distinct_files
           Variant.deployed Variant.short_deployed
           Example.request Example.request "u1" "u2").
  - discriminate.
  - vm_compute. right. right. left. reflexivity.
Defined.

(** X9. An error answer of [predict] is always an [HTTPException] with
    status 400 or 500.  Status 400 is given only when the body of the
    [try] raised a [ValueError], and then the message is "Input error: "
    followed by its text; the exceptions the body raises itself with status
    400 never come out with that status. *)
Theorem error_answers_are_400_or_500 (E : Env) d uid e log :
  predict E d uid = (inl e, log) ->
  (exists msg,
     e = HTTPException 400 ("Input error: " ++ msg)
     /\ predict_body E d uid = (inl (ValueError msg), log))
  \/ (exists e0,
        e = HTTPException 500 ("Prediction failed: " ++ str_exn E e0)
        /\ predict_body E d uid = (inl e0, log)
        /\ forall msg, e0 <> ValueError msg).
Proof.
  unfold predict, handle.
  destruct (predict_body E d uid) as [[[s dtl | msg | msg] | r] l];
    intros [= <- <-].
  - right. exists (HTTPException s dtl). by repeat split.
  - left. by exists msg.
  - right. exists (OtherException msg). by repeat split.
Qed.

Lemma error_answers_are_400_or_500_witness :
  (exists msg,
     HTTPException 400 "Input error: Input X contains NaN."
     = HTTPException 400 ("Input error: " ++ msg)
     /\ predict_body (Example.env Example.dataset Example.failing_model)
          Example.request "u1"
        = (inl (ValueError msg), [ModelPredict Example.request_frame]))
  \/ (exists e0,
        HTTPException 400 "Input error: Input X contains NaN."
        = HTTPException 500
            ("Prediction failed: "
             ++ str_exn (Example.env Example.dataset Example.failing_model) e0)
        /\ predict_body (Example.env Example.dataset Example.failing_model)
             Example.request "u1"
           = (inl e0, [ModelPredict Example.request_frame])
        /\ forall msg, e0 <> ValueError msg).
Proof.
  apply (error_answers_are_400_or_500
           (Example.env Example.dataset Example.failing_model)
           Example.request "u1").
  vm_compute. reflexivity.
Defined.

Section BeforeTheModel.

Variable E : Env.

Lemma encode_column_error col value m e l :
  encode_column E col value m = (inl e, l) ->
  (exists detail, e = HTTPException 400 detail \/ e = HTTPException 500 detail)
  \/ (exists encoder,
        label_encoders E !! col = Some encoder
        /\ value ∈ classes_ encoder
        /\ transform encoder value = inl e).
Proof.
  unfold encode_column.
  destruct (label_encoders E !! col) as [encoder |] eqn:Hlook.
  - case_bool_decide as Hin.
    + destruct (transform encoder value) as [e' | code] eqn:Htr;
        [| discriminate].
      intros [= <- <-]. right. by exists encoder.
    + intros [= <- <-]. left. eauto.
  - intros [= <- <-]. left. eauto.
Qed.

Lemma encode_columns_error items m e l :
  encode_columns E items m = (inl e, l) ->
  (exists detail, e = HTTPException 400 detail \/ e = HTTPException 500 detail)
  \/ (exists col value encoder,
        In (col, value) items
        /\ label_encoders E !! col = Some encoder
        /\ value ∈ classes_ encoder
        /\ transform encoder value = inl e).
Proof.
  revert m l. induction items as [| [col value] items IH]; intros m l;
    [discriminate |].
  simpl. destruct (encode_column E col value m) as [[e' | m'] l1] eqn:Hc; simpl.
  - intros [= <- <-]. apply encode_column_error in Hc as [H | (enc & H)].
    + by left.
    + right. exists col, value, enc. split; [by left | done].
  - destruct (encode_columns E items m') as [[e' | m''] l2] eqn:Hr;
      [| discriminate].
    intros [= <- <-]. apply IH in Hr as [H | (c & v & enc & Hin & H)].
    + by left.
    + right. exists c, v, enc. split; [by right | done].
Qed.

Lemma compute_price_per_sqm_error d c e l :
  encodes E d c ->
  compute_price_per_sqm E d (encoded_dict c) = (inl e, l) ->
  exists detail, e = HTTPException 400 detail \/ e = HTTPException 500 detail.
Proof.
  intros ((encoder & Hlook & _) & _).
  unfold compute_price_per_sqm, getitem. rewrite encoded_dict_City. simpl.
  destruct (city_rows E (city_code c)) as [| r rows].
  - rewrite Hlook. simpl. intros [= <- <-]. eauto.
  - destruct (nan_or_not_finite (Series_mean _)); [| discriminate].
    destruct (nan_or_not_finite (Series_median _)); [| discriminate].
    intros [= <- <-]. eauto.
Qed.

End BeforeTheModel.

(** X10. The steps before the model (lines 50-110) never fail on a missing
    dictionary key: when they raise, the exception is an [HTTPException]
    with status 400 or 500 raised by the endpoint itself, or it was raised
    by the [transform] of the encoder of one of the four columns on a value
    that is among its classes. *)
Theorem frame_building_errors (E : Env) d e l :
  assemble E d = (inl e, l) ->
  (exists detail, e = HTTPException 400 detail \/ e = HTTPException 500 detail)
  \/ (exists col value encoder,
        In (col, value) (categorical_inputs d)
        /\ label_encoders E !! col = Some encoder
        /\ value ∈ classes_ encoder
        /\ transform encoder value = inl e).
Proof.
  intros H. unfold assemble in H.
  destruct (validate d) as [[e0 | []] l0] eqn:Hv.
  - cbn [bind] in H. injection H as <- <-. left.
    unfold validate, raise, ret in Hv. repeat case_match; simplify_eq; eauto.
  - pose proof (silent_eq _ _ _ (silent_validate d) Hv) as ->.
    rewrite (bind_pure _ _ tt eq_refl) in H.
    destruct (encode_columns E (categorical_inputs d) ∅) as [[e1 | m] l1] eqn:He.
    + cbn [bind] in H. injection H as <- <-.
      by apply encode_columns_error in He.
    + apply encode_columns_inv in He as (c & He & -> & ->).
      rewrite (bind_pure _ _ (encoded_dict c) eq_refl) in H.
      destruct (compute_price_per_sqm E d (encoded_dict c))
        as [[e2 | p] l2] eqn:Hp.
      * cbn [bind] in H. injection H as <- <-. left.
        by apply (compute_price_per_sqm_error E d c e2 l2).
      * pose proof (silent_eq _ _ _ (silent_compute_price_per_sqm E d _) Hp)
          as ->.
        rewrite (bind_pure _ _ p eq_refl), make_input_df_encoded in H.
        discriminate.
Qed.

Lemma frame_building_errors_witness :
  (exists detail,
     HTTPException 400
       "Invalid City: 'Atlantis'. Valid options: Alexandria, Cairo, Giza, Luxor"
     = HTTPException 400 detail
     \/ HTTPException 400
          "Invalid City: 'Atlantis'. Valid options: Alexandria, Cairo, Giza, Luxor"
        = HTTPException 500 detail)
  \/ (exists col value encoder,
        In (col, value)
           (categorical_inputs (Example.with_city "Atlantis" Example.request))
        /\ label_encoders Variant.deployed !! col = Some encoder
        /\ value ∈ classes_ encoder
        /\ transform encoder value
           = inl (HTTPException 400
                    "Invalid City: 'Atlantis'. Valid options: Alexandria, Cairo, Giza, Luxor")).
Proof.
  apply (frame_building_errors Variant.deployed
           (Example.with_city "Atlantis" Example.request) _ []).
  vm_compute. reflexivity.
Defined.

(** X11. After the loop of lines 68-77 has run to its end, [encoded_inputs]
    has exactly the keys City, Type, Furnished and Delivery_Term, each with
    the code its encoder gave for the submitted value, and the frame of
    lines 100-110 is built without error from it. *)
Theorem encoded_inputs_has_the_four_keys (E : Env) d m l :
  encode_columns E (categorical_inputs d) ∅ = (inr m, l) ->
  dom m = ({["City"; "Type"; "Furnished"; "Delivery_Term"]} : gset string)
  /\ (exists c,
        encodes E d c
        /\ m !! "City" = Some (city_code c)
        /\ m !! "Type" = Some (type_code c)
        /\ m !! "Furnished" = Some (furnished_code c)
        /\ m !! "Delivery_Term" = Some (delivery_code c)
        /\ forall p, make_input_df d m p = (inr (feature_vector d c p), [])).
Proof.
  intros H. apply encode_columns_inv in H as (c & He & -> & _). split.
  - unfold encoded_dict. rewrite !dom_insert_L, dom_empty_L; set_solver.
  - exists c. split; [done |].
    rewrite encoded_dict_City, encoded_dict_Type, encoded_dict_Furnished,
      encoded_dict_Delivery_Term.
    split; [done |]. split; [done |]. split; [done |]. split; [done |].
    intros p. apply make_input_df_encoded.
Qed.

Lemma encoded_inputs_has_the_four_keys_witness :
  dom (encoded_dict (mk_codes 1 0 1 1))
  = ({["City"; "Type"; "Furnished"; "Delivery_Term"]} : gset string)
  /\ (exists c,
        encodes Variant.deployed Example.request c
        /\ encoded_dict (mk_codes 1 0 1 1) !! "City" = Some (city_code c)
        /\ encoded_dict (mk_codes 1 0 1 1) !! "Type" = Some (type_code c)
        /\ encoded_dict (mk_codes 1 0 1 1) !! "Furnished"
           = Some (furnished_code c)
        /\ encoded_dict (mk_codes 1 0 1 1) !! "Delivery_Term"
           = Some (delivery_code c)
        /\ forall p,
             make_input_df Example.request (encoded_dict (mk_codes 1 0 1 1)) p
             = (inr (feature_vector Example.request c p), [])).
Proof.
  apply (encoded_inputs_has_the_four_keys Variant.deployed Example.request
           (encoded_dict (mk_codes 1 0 1 1)) []).
  vm_compute. reflexivity.
Defined.

(** X12. A request in range whose four categories are encoded, whose city
    has records and a finite derived price, gets an answer as soon as the
    collaborators behave: the model yields a price that is not negative,
    the explainer is built and yields a row of attributions, the plot is
    drawn, and the image (converted to RGB when its mode is RGBA, as it is
    otherwise) is saved.  The answer holds the model's price, the URL of
    the saved file and the description of the row (one line per column, as
    far as the attributions go). *)
Theorem well_behaved_call_returns (E : Env) d uid c df p ps ex row rows img :
  ~ out_of_range d ->
  encodes E d c ->
  city_rows E (city_code c) <> [] ->
  nan_or_not_finite (price_feature E (city_code c)) = false ->
  df = feature_vector d c (price_feature E (city_code c)) ->
  model_predict E df = inr (p :: ps) ->
  (p <? 0)%float = false ->
  TreeExplainer E = inr ex ->
  shap_values ex df = inr (row :: rows) ->
  waterfall_image E row (expected_value ex) (iloc0 E df) (columns df) = inr img ->
  save_jpeg E
    (if String.eqb (image_mode E img) "RGBA" then convert_RGB E img else img)
    ("static/shap_explanation_" ++ uid ++ ".jpeg") = inr tt ->
  predict E d uid
  = (inr {| predicted_price := p;
            image_url := "/static/shap_explanation_" ++ uid ++ ".jpeg";
            factors_description :=
              description_header
              ++ String.concat ""
                   (feature_lines E feature_columns row (iloc0 E df)) |},
     [ ModelPredict df; ShapValues df;
       SaveJpeg ("static/shap_explanation_" ++ uid ++ ".jpeg") ]).
Proof.
  intros Hv He Hrows Hfin Hdf Hm Hneg Hex Hs Hw Hsave.
  unfold predict.
  rewrite (predict_body_assembled E d uid df);
    [| rewrite Hdf; by apply assemble_ok ].
  unfold predict_and_explain.
  rewrite Hm. simpl. rewrite Hneg. simpl. rewrite Hex. simpl.
  rewrite Hs. simpl. rewrite Hw. simpl. rewrite Hsave. simpl.
  rewrite describe_feature_lines. by subst df.
Qed.

Lemma well_behaved_call_returns_witness :
  predict Variant.deployed Example.request "u1"
  = (inr {| predicted_price := 4500;
            image_url := "/static/shap_explanation_" ++ "u1" ++ ".jpeg";
            factors_description :=
              description_header
              ++ String.concat ""
                   (feature_lines Variant.deployed feature_columns
                      Example.attributions
                      (iloc0 Variant.deployed Example.request_frame)) |},
     [ ModelPredict Example.request_frame; ShapValues Example.request_frame;
       SaveJpeg ("static/shap_explanation_" ++ "u1" ++ ".jpeg") ]).
Proof.
  apply (well_behaved_call_returns Variant.deployed Example.request "u1"
           (mk_codes 1 0 1 1) Example.request_frame 4500%float []
           Example.explainer Example.attributions [] tt).
  - apply (example_in_range "Cairo").
  - apply (example_encodes Example.dataset Example.area_model).
  - vm_compute. discriminate.
  - vm_compute. reflexivity.
  - vm_compute. reflexivity.
  - vm_compute. reflexivity.
  - vm_compute. reflexivity.
  - reflexivity.
  - vm_compute. reflexivity.
  - reflexivity.
  - reflexivity.
Defined.

(** X13. The description has one line per column only as far as the row of
    attributions goes: the loop of line 149 stops with the shortest of its
    three sequences, so an explainer that yields fewer than nine
    attributions gives a shorter description and no error. *)
Theorem description_stops_with_the_attributions (E : Env) d uid r log :
  predict E d uid = (inr r, log) ->
  exists df ex row rows,
    In (ShapValues df) log
    /\ TreeExplainer E = inr ex
    /\ shap_values ex df = inr (row :: rows)
    /\ factors_description r
       = description_header
         ++ String.concat "" (feature_lines E (columns df) row (iloc0 E df))
    /\ length (feature_lines E (columns df) row (iloc0 E df))
       = (9 `min` length row)%nat.
Proof.
  intros H. apply predict_returns in H.
  destruct (predict_calls E d uid) as [(e & Ha & _) | (df & l & Ha & _ & _)].
  { rewrite (predict_body_not_assembled E d uid e Ha) in H. discriminate. }
  rewrite (predict_body_assembled E d uid df Ha) in H.
  apply assemble_inv in Ha as (c & _ & _ & _ & _ & -> & _).
  apply predict_and_explain_inv in H
    as (ps & ex & row & rows & _ & _ & Hex & Hs & _ & Hdesc & ->).
  eexists _, ex, row, rows.
  split; [right; by left |]. split; [done |]. split; [exact Hs |].
  split; [by rewrite Hdesc, describe_feature_lines |].
  rewrite length_feature_lines_min, length_iloc0.
  unfold columns. rewrite length_map. cbn [length feature_vector]. lia.
Qed.

Lemma description_stops_with_the_attributions_witness :
  exists df ex row rows,
    In (ShapValues df)
       [ ModelPredict Example.request_frame; ShapValues Example.request_frame;
         SaveJpeg "static/shap_explanation_u1.jpeg" ]
    /\ TreeExplainer Variant.short_deployed = inr ex
    /\ shap_values ex df = inr (row :: rows)
    /\ factors_description Variant.short_answer
       = description_header
         ++ String.concat ""
              (feature_lines Variant.short_deployed (columns df) row
                 (iloc0 Variant.short_deployed df))
    /\ length (feature_lines Variant.short_deployed (columns df) row
                 (iloc0 Variant.short_deployed df))
       = (9 `min` length row)%nat.
Proof.
  apply (description_stops_with_the_attributions Variant.short_deployed
           Example.request "u1" Variant.short_answer).
  vm_compute. reflexivity.
Defined.

(** The description of the short explainer has two lines. *)
Example short_description_has_two_lines :
  predict Variant.short_deployed Example.request "u1"
  = (inr Variant.short_answer,
     [ ModelPredict Example.request_frame; ShapValues Example.request_frame;
       SaveJpeg "static/shap_explanation_u1.jpeg" ]).
Proof. vm_compute. reflexivity. Qed.

(** * Start-up *)

Section StartupProperties.

Context {Model Encoders DataFrame : Type}.
Variable load_model : Startup.result Model.
Variable load_encoders : Startup.result Encoders.
Variable read_csv : Startup.result DataFrame.
Variable df_columns : DataFrame -> list string.

Lemma check_required_columns (present : list string) :
  Startup.check_columns Startup.required_columns present = inr tt
  <-> "City" ∈ present /\ "Price_per_sqm" ∈ present.
Proof.
  unfold Startup.required_columns. simpl.
  repeat case_bool_decide; split; try done; try tauto; intros [? ?]; done.
Qed.

Lemma except_FileNotFoundError_inr {A} (r : Startup.result A) a :
  Startup.except_FileNotFoundError r = inr a <-> r = inr a.
Proof. destruct r as [[] |]; simpl; split; congruence. Qed.

End StartupProperties.

(** X14. Start-up gets through exactly when the three loads succeed and the
    dataset has both a City and a Price_per_sqm column; what it then keeps
    is what the loads returned. *)
Theorem startup_succeeds_iff {Model Encoders DataFrame : Type}
    (load_model : Startup.result Model)
    (load_encoders : Startup.result Encoders)
    (read_csv : Startup.result DataFrame)
    (df_columns : DataFrame -> list string) model label_encoders df_cleaned :
  Startup.startup load_model load_encoders read_csv df_columns
  = inr (model, label_encoders, df_cleaned)
  <-> load_model = inr model
      /\ load_encoders = inr label_encoders
      /\ read_csv = inr df_cleaned
      /\ "City" ∈ df_columns df_cleaned
      /\ "Price_per_sqm" ∈ df_columns df_cleaned.
Proof.
  unfold Startup.startup, Startup.load_all. split.
  - destruct load_model as [[] | m]; try discriminate.
    destruct load_encoders as [[] | enc]; try discriminate.
    destruct read_csv as [[] | df]; try discriminate.
    cbn [Startup.except_FileNotFoundError].
    destruct (Startup.check_columns Startup.required_columns (df_columns df))
      as [e | []] eqn:Hc; [discriminate |].
    intros [= -> -> ->]. apply check_required_columns in Hc. tauto.
  - intros (-> & -> & -> & Hc & Hp). cbn [Startup.except_FileNotFoundError].
    by rewrite (proj2 (check_required_columns (df_columns df_cleaned))
                  (conj Hc Hp)).
Qed.

Lemma startup_succeeds_iff_witness :
  Variant.startup_ok = inr (tt, tt, Variant.csv_columns).
Proof.
  apply (proj2 (startup_succeeds_iff (inr tt) (inr tt)
                  (inr Variant.csv_columns) (fun cols => cols)
                  tt tt Variant.csv_columns)).
  repeat split; apply (bool_decide_unpack _); vm_compute; exact I.
Defined.

(** X15. When a load raises [FileNotFoundError], start-up raises
    [FileNotFoundError] with the message of line 27 around the text of the
    first load that failed, in the order model, encoders, dataset; an
    exception of another class raised by a load leaves start-up as it
    is. *)
Theorem startup_reports_first_missing_file {Model Encoders DataFrame : Type}
    (load_model : Startup.result Model)
    (load_encoders : Startup.result Encoders)
    (read_csv : Startup.result DataFrame)
    (df_columns : DataFrame -> list string) :
  let startup :=
    Startup.startup load_model load_encoders read_csv df_columns in
  let missing msg :=
    inl (Startup.FileNotFoundError
           ("Missing file: " ++ msg
            ++ ". Ensure 'model.joblib', 'encoders.joblib', and 'cleaned_data.csv' are in the project root.")) in
  (forall msg,
     load_model = inl (Startup.FileNotFoundError msg) -> startup = missing msg)
  /\ (forall model msg,
        load_model = inr model ->
        load_encoders = inl (Startup.FileNotFoundError msg) ->
        startup = missing msg)
  /\ (forall model label_encoders msg,
        load_model = inr model ->
        load_encoders = inr label_encoders ->
        read_csv = inl (Startup.FileNotFoundError msg) ->
        startup = missing msg)
  /\ (forall e,
        Startup.load_all load_model load_encoders read_csv = inl e ->
        (forall msg, e <> Startup.FileNotFoundError msg) ->
        startup = inl e).
Proof.
  cbv zeta. unfold Startup.startup, Startup.load_all. repeat split.
  - by intros msg ->.
  - by intros m msg -> ->.
  - by intros m enc msg -> -> ->.
  - intros e He Hne. rewrite He. destruct e; simpl; try done.
    by destruct (Hne msg).
Qed.

Lemma startup_reports_first_missing_file_witness :
  Variant.startup_no_encoders
  = inl (Startup.FileNotFoundError
           "Missing file: [Errno 2] No such file or directory: 'encoders.joblib'. Ensure 'model.joblib', 'encoders.joblib', and 'cleaned_data.csv' are in the project root.").
Proof.
  apply (proj1 (proj2 (startup_reports_first_missing_file
                         (inr tt)
                         (inl (Startup.FileNotFoundError
                                 "[Errno 2] No such file or directory: 'encoders.joblib'"))
                         (inl (Startup.FileNotFoundError
                                 "[Errno 2] No such file or directory: 'cleaned_data.csv'"))
                         (fun cols : list string => cols)))
           tt "[Errno 2] No such file or directory: 'encoders.joblib'").
  - reflexivity.
  - reflexivity.
Defined.

(** X16. When the three loads succeed and the dataset lacks a required
    column, start-up raises [ValueError] naming the column: City when City
    is missing, whether or not Price_per_sqm is there, and Price_per_sqm
    when only that one is missing. *)
Theorem startup_reports_missing_column {Model Encoders DataFrame : Type}
    (load_model : Startup.result Model)
    (load_encoders : Startup.result Encoders)
    (read_csv : Startup.result DataFrame)
    (df_columns : DataFrame -> list string) model label_encoders df_cleaned :
  load_model = inr model ->
  load_encoders = inr label_encoders ->
  read_csv = inr df_cleaned ->
  ("City" ∉ df_columns df_cleaned ->
   Startup.startup load_model load_encoders read_csv df_columns
   = inl (Startup.ValueError
            "Column 'City' missing in cleaned_data.csv. Run prepare_cleaned_data.py to generate it."))
  /\ ("City" ∈ df_columns df_cleaned ->
      "Price_per_sqm" ∉ df_columns df_cleaned ->
      Startup.startup load_model load_encoders read_csv df_columns
      = inl (Startup.ValueError
               "Column 'Price_per_sqm' missing in cleaned_data.csv. Run prepare_cleaned_data.py to generate it.")).
Proof.
  intros -> -> ->. unfold Startup.startup, Startup.load_all. simpl. split.
  - intros Hc. by rewrite bool_decide_eq_false_2.
  - intros Hc Hp.
    by rewrite bool_decide_eq_true_2, bool_decide_eq_false_2.
Qed.

Lemma startup_reports_missing_column_witness :
  Variant.startup_no_city
  = inl (Startup.ValueError
           "Column 'City' missing in cleaned_data.csv. Run prepare_cleaned_data.py to generate it.").
Proof.
  apply (proj1 (startup_reports_missing_column (inr tt) (inr tt)
                  (inr ["Price"; "Area"]) (fun cols : list string => cols)
                  tt tt ["Price"; "Area"] eq_refl eq_refl eq_refl)).
  apply (bool_decide_eq_false_1 _). vm_compute. reflexivity.
Defined.
